(** * LearnYourWay: the resource scraper service

    A shallow embedding of [crewai_scraper_service/app/agents/evaluation.py]
    (the [EvaluationAgent]), of the de-duplication loop shared by the five
    scraping agents ([app/agents/articles.py] and its siblings) and of the
    [scrape_resources] endpoint of [app/main.py].

    Modelling conventions.
    - Python [str] is [string], for ASCII text: [str.lower] is ASCII
      lower-casing and the regular-expression class [\w] is [[A-Za-z0-9_]].
    - Python [float] scores are exact rationals ([Q]).
    - A resource [dict] is a record; the key ['score'], which the evaluation
      adds, is an optional field.  Dicts are mutable objects: they live in a
      store ([Heap]) and lists hold references ([Loc]) to them.
    - [try]/[except] is an error monad ([Exc]).
    - [rapidfuzz.fuzz.partial_ratio] is an external library function and is a
      parameter of the scoring functions. *)

From Stdlib Require Import String Ascii List Bool Arith ZArith QArith Qminmax.
From Stdlib Require Import Qround Lia Lqa Permutation Sorted.
Import ListNotations.

Local Open Scope string_scope.
Local Open Scope list_scope.
Local Open Scope Q_scope.

(** ** Exceptions *)

Inductive PyExc : Type :=
| ZeroDivisionError
| KeyError (key : string)
| HTTPException (status_code : nat) (detail : string).

Inductive Exc (A : Type) : Type :=
| Return (a : A)
| Raise (e : PyExc).
Arguments Return {A} a.
Arguments Raise {A} e.

Definition bind {A B : Type} (m : Exc A) (k : A -> Exc B) : Exc B :=
  match m with
  | Return a => k a
  | Raise e => Raise e
  end.

Notation "x <- m ;; k" := (bind m (fun x => k))
  (at level 61, m at next level, right associativity).

(** [try: m except Exception: h] *)
Definition try_except {A : Type} (m : Exc A) (h : PyExc -> A) : A :=
  match m with
  | Return a => a
  | Raise e => h e
  end.

(** ** Strings *)

Module Str.

Definition is_upper (c : ascii) : bool :=
  let n := nat_of_ascii c in (65 <=? n)%nat && (n <=? 90)%nat.

Definition is_word_char (c : ascii) : bool :=
  let n := nat_of_ascii c in
  ((65 <=? n)%nat && (n <=? 90)%nat)
  || ((97 <=? n)%nat && (n <=? 122)%nat)
  || ((48 <=? n)%nat && (n <=? 57)%nat)
  || (n =? 95)%nat.

Definition lower_char (c : ascii) : ascii :=
  if is_upper c then ascii_of_nat (nat_of_ascii c + 32) else c.

(** [s.lower()] *)
Fixpoint lower (s : string) : string :=
  match s with
  | EmptyString => EmptyString
  | String c s' => String (lower_char c) (lower s')
  end.

(** [needle in hay] *)
Fixpoint contains (needle hay : string) : bool :=
  String.prefix needle hay
  || match hay with
     | EmptyString => false
     | String _ hay' => contains needle hay'
     end.

Definition snoc (w : string) (c : ascii) : string := (w ++ String c EmptyString)%string.

(** [re.findall(r'\b\w+\b', s)]: the maximal runs of word characters, from
    left to right.  [cur] is the run being read. *)
Fixpoint findall_words_from (cur : option string) (s : string) : list string :=
  match s with
  | EmptyString =>
      match cur with Some w => [w] | None => [] end
  | String c s' =>
      if is_word_char c then
        findall_words_from
          (Some (snoc (match cur with Some w => w | None => EmptyString end) c)) s'
      else
        match cur with
        | Some w => w :: findall_words_from None s'
        | None => findall_words_from None s'
        end
  end.

Definition findall_words (s : string) : list string := findall_words_from None s.

(** [x in xs] for a list of strings *)
Definition mem (x : string) (xs : list string) : bool :=
  existsb (String.eqb x) xs.

End Str.

(** [d.get(k, default)] on a dict literal. *)
Fixpoint dict_get {V : Type} (d : list (string * V)) (k : string) (default : V) : V :=
  match d with
  | [] => default
  | (k', v) :: d' => if String.eqb k k' then v else dict_get d' k default
  end.

(** ** Resources and the object store *)

Record ResourceDict : Type := mkResource {
  type : string;
  title : string;
  link : string;
  raw_text : string;
  source : string;
  score : option Q
}.

(** [resource['score'] = s] *)
Definition set_score (r : ResourceDict) (s : Q) : ResourceDict :=
  mkResource (type r) (title r) (link r) (raw_text r) (source r) (Some s).

Definition Loc : Type := nat.
Definition Heap : Type := Loc -> ResourceDict.

Definition upd (h : Heap) (l : Loc) (r : ResourceDict) : Heap :=
  fun l' => if Nat.eqb l' l then r else h l'.

(** [x['score']] *)
Definition get_score (h : Heap) (l : Loc) : Exc Q :=
  match score (h l) with
  | Some s => Return s
  | None => Raise (KeyError "score")
  end.

(** ** Numbers *)

(** [a / n] where [n] is [len(...)]. *)
Definition py_div (a : Q) (n : nat) : Exc Q :=
  if Nat.eqb n 0 then Raise ZeroDivisionError
  else Return (a / inject_Z (Z.of_nat n)).

(** Nearest integer, ties to the even one. *)
Definition round_half_even (x : Q) : Z :=
  let f := Qfloor x in
  let r := x - inject_Z f in
  match Qcompare r (1 # 2) with
  | Lt => f
  | Gt => (f + 1)%Z
  | Eq => if Z.even f then f else (f + 1)%Z
  end.

(** [round(x, 2)] *)
Definition round2 (x : Q) : Q := round_half_even (x * 100) # 100.

(** ** The evaluation agent *)

Module EvaluationAgent.

Definition min_score_threshold : Q := 0.4.
Definition max_results_per_category : nat := 5.

Definition source_credibility : list (string * Q) :=
  [ ("wikipedia", 1.0); ("mdn", 0.95); ("oracle", 0.9); ("tensorflow", 0.9);
    ("pytorch", 0.9); ("scikit-learn", 0.9); ("pandas", 0.9); ("numpy", 0.9);
    ("spring", 0.9); ("django", 0.9); ("fastapi", 0.9); ("react", 0.9);
    ("node.js", 0.9); ("tutorialspoint", 0.8); ("geeksforgeeks", 0.8);
    ("w3schools", 0.8); ("freecodecamp", 0.8); ("edx", 0.85);
    ("coursera", 0.85); ("youtube", 0.7); ("vimeo", 0.7); ("hashnode", 0.75);
    ("dev.to", 0.75); ("medium", 0.7); ("personal_blog", 0.6);
    ("blogspot", 0.6); ("wordpress", 0.6); ("tumblr", 0.5) ].

Definition level_keywords : list (string * list string) :=
  [ ("beginner",
     ["beginner"; "basic"; "intro"; "introduction"; "getting started";
      "learn"; "tutorial"; "guide"; "simple"; "easy"]);
    ("intermediate",
     ["intermediate"; "advanced"; "deep dive"; "comprehensive"; "detailed";
      "expert"; "professional"; "production"]);
    ("advanced",
     ["advanced"; "expert"; "master"; "professional"; "production";
      "enterprise"; "optimization"; "performance"]) ].

(** [any(word in title for word in words)] *)
Definition any_in (words : list string) (title : string) : bool :=
  existsb (fun word => Str.contains word title) words.

Section Scoring.

(** [fuzz.partial_ratio], a similarity between 0 and 100. *)
Variable partial_ratio : string -> string -> Q.

(** The first loop of [_calculate_relevance_score]. *)
Fixpoint title_score_loop (topic_keywords : list string) (title : string) (title_score : Q) : Q :=
  match topic_keywords with
  | [] => title_score
  | keyword :: rest =>
      if Str.contains keyword title then
        if String.eqb keyword title
           || Str.contains (" " ++ keyword ++ " ")%string (" " ++ title ++ " ")%string
        then title_score_loop rest title (title_score + 1.0)
        else title_score_loop rest title (title_score + 0.7)
      else title_score_loop rest title title_score
  end.

(** The second loop of [_calculate_relevance_score]. *)
Fixpoint content_score_loop (topic_keywords : list string) (raw_text : string) (content_score : Q) : Q :=
  match topic_keywords with
  | [] => content_score
  | keyword :: rest =>
      if Str.contains keyword raw_text
      then content_score_loop rest raw_text (content_score + 0.5)
      else content_score_loop rest raw_text content_score
  end.

(** The body of the [try] of [_calculate_relevance_score]. *)
Definition relevance_body (resource : ResourceDict) (topic : string) : Exc Q :=
  let title := Str.lower (title resource) in
  let raw_text := Str.lower (raw_text resource) in
  let topic_lower := Str.lower topic in
  let topic_keywords := Str.findall_words topic_lower in
  let title_score := title_score_loop topic_keywords title 0 in
  let content_score := content_score_loop topic_keywords raw_text 0 in
  let title_fuzzy := partial_ratio topic_lower title / 100 in
  let content_fuzzy := partial_ratio topic_lower raw_text / 100 in
  t <- py_div title_score (length topic_keywords) ;;
  c <- py_div content_score (length topic_keywords) ;;
  let relevance := t * 0.6 + c * 0.2 + title_fuzzy * 0.1 + content_fuzzy * 0.1 in
  Return (Qmin relevance 1.0).

Definition _calculate_relevance_score (resource : ResourceDict) (topic : string) : Q :=
  try_except (relevance_body resource topic) (fun _ => 0.0).

(** The keyword loop of [_calculate_content_depth_score]; the state is
    [(level_indicators, total_checks)]. *)
Fixpoint level_loop (keywords : list string) (title raw_text : string) (st : nat * nat) : nat * nat :=
  match keywords with
  | [] => st
  | keyword :: rest =>
      let '(level_indicators, total_checks) := st in
      let total_checks := S total_checks in
      if Str.contains keyword title || Str.contains keyword raw_text
      then level_loop rest title raw_text (S level_indicators, total_checks)
      else level_loop rest title raw_text (level_indicators, total_checks)
  end.

Definition nat_Q (n : nat) : Q := inject_Z (Z.of_nat n).

(** The [except] of this function and of the next one (they return 0.5)
    is never reached on a dict whose values are strings. *)
Definition _calculate_content_depth_score (resource : ResourceDict) (level : string) : Q :=
  let title := Str.lower (title resource) in
  let raw_text := Str.lower (raw_text resource) in
  let level_lower := Str.lower level in
  let keywords := dict_get level_keywords level_lower [] in
  let '(level_indicators, total_checks) := level_loop keywords title raw_text (O, O) in
  let base_score :=
    if (0 <? total_checks)%nat
    then nat_Q level_indicators / nat_Q total_checks
    else 0.5 in
  let base_score :=
    if String.eqb level_lower "beginner" then
      if any_in ["tutorial"; "guide"; "learn"; "intro"] title
      then base_score + 0.2 else base_score
    else if String.eqb level_lower "intermediate" then
      if any_in ["advanced"; "deep"; "comprehensive"] title
      then base_score + 0.2 else base_score
    else if String.eqb level_lower "advanced" then
      if any_in ["expert"; "master"; "professional"] title
      then base_score + 0.2 else base_score
    else base_score in
  let base_score :=
    if String.eqb level_lower "beginner" then
      if any_in ["expert"; "advanced"; "master"] title
      then base_score - 0.3 else base_score
    else if String.eqb level_lower "advanced" then
      if any_in ["beginner"; "intro"; "basic"] title
      then base_score - 0.3 else base_score
    else base_score in
  Qmax 0.0 (Qmin base_score 1.0).

Definition _calculate_credibility_score (resource : ResourceDict) : Q :=
  let source := Str.lower (source resource) in
  let link := Str.lower (link resource) in
  let source_score := dict_get source_credibility source 0.5 in
  if Str.contains "wikipedia.org" link then Qmax source_score 1.0
  else if Str.contains "github.com" link then Qmax source_score 0.8
  else if Str.contains "stackoverflow.com" link then Qmax source_score 0.8
  else if Str.contains "docs." link then Qmax source_score 0.9
  else if Str.contains "tutorial" link then Qmax source_score 0.7
  else source_score.

(** [final_score] of the loop of [evaluate]. *)
Definition final_score (resource : ResourceDict) (topic level : string) : Q :=
  _calculate_relevance_score resource topic * 0.4
  + _calculate_content_depth_score resource level * 0.3
  + _calculate_credibility_score resource * 0.3.

(** *** Sorting

    [list.sort(key=..., reverse=True)] computes every key first (the list
    is left as it was when a key raises), then sorts stably: elements with
    equal keys keep their relative order. *)

Fixpoint decorate (h : Heap) (ls : list Loc) : Exc (list (Q * Loc)) :=
  match ls with
  | [] => Return []
  | l :: rest =>
      k <- get_score h l ;;
      krest <- decorate h rest ;;
      Return ((k, l) :: krest)
  end.

Fixpoint insert_desc (x : Q * Loc) (sorted : list (Q * Loc)) : list (Q * Loc) :=
  match sorted with
  | [] => [x]
  | y :: rest =>
      if Qle_bool (fst y) (fst x) then x :: sorted
      else y :: insert_desc x rest
  end.

Fixpoint sort_desc (kls : list (Q * Loc)) : list (Q * Loc) :=
  match kls with
  | [] => []
  | x :: rest => insert_desc x (sort_desc rest)
  end.

(** [ls.sort(key=lambda x: x['score'], reverse=True)] *)
Definition sort_by_score (h : Heap) (ls : list Loc) : Exc (list Loc) :=
  kls <- decorate h ls ;;
  Return (map snd (sort_desc kls)).

(** *** [_filter_by_category] *)

(** [by_type] is an insertion-ordered dict from a type to the list of the
    resources of that type. *)
Definition ByType : Type := list (string * list Loc).

(** [if t not in by_type: by_type[t] = []] then [by_type[t].append(l)] *)
Fixpoint by_type_append (by_type : ByType) (t : string) (l : Loc) : ByType :=
  match by_type with
  | [] => [(t, [l])]
  | (t', ls) :: rest =>
      if String.eqb t t' then (t', ls ++ [l]) :: rest
      else (t', ls) :: by_type_append rest t l
  end.

Fixpoint group_loop (h : Heap) (resources : list Loc) (by_type : ByType) : ByType :=
  match resources with
  | [] => by_type
  | l :: rest => group_loop h rest (by_type_append by_type (type (h l)) l)
  end.

Fixpoint take_loop (h : Heap) (by_type : ByType) (filtered_resources : list Loc) : Exc (list Loc) :=
  match by_type with
  | [] => Return filtered_resources
  | (_, type_resources) :: rest =>
      type_resources <- sort_by_score h type_resources ;;
      let top_resources := firstn max_results_per_category type_resources in
      take_loop h rest (filtered_resources ++ top_resources)
  end.

Definition filter_body (h : Heap) (resources : list Loc) : Exc (list Loc) :=
  let by_type := group_loop h resources [] in
  filtered_resources <- take_loop h by_type [] ;;
  sort_by_score h filtered_resources.

Definition _filter_by_category (h : Heap) (resources : list Loc) : list Loc :=
  try_except (filter_body h resources) (fun _ => resources).

(** *** [evaluate] *)

(** The [for resource in resources] loop.  The scoring helpers never
    raise, so the [try] around the body of the loop has nothing to catch.
    The score is written on the resource before the threshold test. *)
Fixpoint evaluate_loop (topic level : string) (resources : list Loc) (h : Heap)
  : list Loc * Heap :=
  match resources with
  | [] => ([], h)
  | l :: rest =>
      let resource := h l in
      let final_score := final_score resource topic level in
      let h := upd h l (set_score resource (round2 final_score)) in
      let '(evaluated_resources, h') := evaluate_loop topic level rest h in
      if Qle_bool min_score_threshold final_score
      then (l :: evaluated_resources, h')
      else (evaluated_resources, h')
  end.

Definition evaluate (h : Heap) (resources : list Loc) (topic level : string)
  : list Loc * Heap :=
  let '(evaluated_resources, h') := evaluate_loop topic level resources h in
  (try_except
     (evaluated_resources <- sort_by_score h' evaluated_resources ;;
      Return (_filter_by_category h' evaluated_resources))
     (fun _ => []),
   h').

End Scoring.

End EvaluationAgent.

(** ** The scraping agents

    [ArticlesAgent.scrape], and likewise the [scrape] of [DocsAgent],
    [TutorialsAgent], [VideosAgent] and [BlogsAgent]: the searches (network
    calls) collect [resources], then the duplicates are removed by link. *)

Module ArticlesAgent.

(** The loop over [resources] with the set [seen_urls]. *)
Fixpoint unique_loop (resources : list ResourceDict) (seen_urls : list string)
  : list ResourceDict :=
  match resources with
  | [] => []
  | resource :: rest =>
      if Str.mem (link resource) seen_urls
      then unique_loop rest seen_urls
      else resource :: unique_loop rest (link resource :: seen_urls)
  end.

(** [searches] is the outcome of the searching part of the [try]. *)
Definition scrape (searches : Exc (list ResourceDict)) : list ResourceDict :=
  try_except
    (resources <- searches ;; Return (unique_loop resources []))
    (fun _ => []).

End ArticlesAgent.

(** ** The endpoint ([app/main.py]) *)

Module Main.

Record ScrapeRequest : Type := mkRequest {
  topic : string;
  level : string
}.

(** The pydantic model [Resource]. *)
Record Resource : Type := mkItem {
  item_type : string;
  item_title : string;
  item_link : string;
  item_score : Q
}.

Record ScrapeResponse : Type := mkResponse {
  content : string;
  resources : list Resource
}.

(** What [asyncio.gather(..., return_exceptions=True)] yields for a task. *)
Inductive TaskResult : Type :=
| Raised (e : string)
| Returned (result : list ResourceDict).

(** An agent's [scrape], as the outcome of awaiting it on a topic and level. *)
Definition Agent : Type := string -> string -> TaskResult.

Record Agents : Type := mkAgents {
  articles_agent : Agent;
  docs_agent : Agent;
  tutorials_agent : Agent;
  videos_agent : Agent;
  blogs_agent : Agent
}.

(** What the endpoint does, as seen from outside. *)
Inductive Event : Type :=
| TaskStarted (i : nat)
| LogAgentFailed (i : nat) (e : string).

Definition valid_levels : list string := ["beginner"; "intermediate"; "advanced"].

(** The loop [for i, result in enumerate(results)]. *)
Fixpoint collect_loop (i : nat) (results : list TaskResult)
  : list ResourceDict * list Event :=
  match results with
  | [] => ([], [])
  | Raised e :: rest =>
      let '(all_resources, log) := collect_loop (S i) rest in
      (all_resources, LogAgentFailed i e :: log)
  | Returned result :: rest =>
      let '(all_resources, log) := collect_loop (S i) rest in
      (result ++ all_resources, log)
  end.

Definition empty_dict : ResourceDict := mkResource "" "" "" "" "" None.

(** The dicts of [all_resources] are distinct objects: the one at index [i]
    is stored at location [i]. *)
Definition alloc (all_resources : list ResourceDict) : list Loc * Heap :=
  (seq 0 (length all_resources), fun l => nth l all_resources empty_dict).

(** [Resource(type=resource["type"], ..., score=resource["score"])] *)
Fixpoint format_resources (h : Heap) (evaluated_resources : list Loc) : Exc (list Resource) :=
  match evaluated_resources with
  | [] => Return []
  | l :: rest =>
      s <- get_score h l ;;
      items <- format_resources h rest ;;
      Return (mkItem (type (h l)) (title (h l)) (link (h l)) s :: items)
  end.

Section Endpoint.

Variable partial_ratio : string -> string -> Q.
Variable agents : Agents.

(** The tasks, in registration order. *)
Definition tasks (request : ScrapeRequest) : list TaskResult :=
  [ articles_agent agents (topic request) (level request);
    docs_agent agents (topic request) (level request);
    tutorials_agent agents (topic request) (level request);
    videos_agent agents (topic request) (level request);
    blogs_agent agents (topic request) (level request) ].

(** The list given to [evaluation_agent.evaluate]. *)
Definition all_resources (request : ScrapeRequest) : list ResourceDict :=
  fst (collect_loop 0 (tasks request)).

(** The body of the [try] of [scrape_resources]. *)
Definition scrape_body (request : ScrapeRequest) : Exc ScrapeResponse * list Event :=
  if negb (Str.mem (Str.lower (level request)) valid_levels) then
    (Raise (HTTPException 400
       "Invalid level. Must be one of: ['beginner', 'intermediate', 'advanced']"),
     [])
  else
    let results := tasks request in
    let started := map TaskStarted (seq 0 (length results)) in
    let '(all_resources, log) := collect_loop 0 results in
    let '(locs, h) := alloc all_resources in
    let '(evaluated_resources, h') :=
      EvaluationAgent.evaluate partial_ratio h locs (topic request) (level request) in
    (items <- format_resources h' evaluated_resources ;;
     Return (mkResponse
               ("Learning resources for " ++ topic request ++ " at "
                  ++ level request ++ " level")%string
               items),
     started ++ log).

(** [except Exception] catches whatever the body raises, the
    [HTTPException] of the level check too, and raises status 500. *)
Definition scrape_resources (request : ScrapeRequest) : Exc ScrapeResponse * list Event :=
  let '(r, events) := scrape_body request in
  (match r with
   | Return response => Return response
   | Raise _ => Raise (HTTPException 500 "Internal server error")
   end,
   events).

End Endpoint.

End Main.

(** * Vocabulary of the properties *)

(** Descending by key. *)
Definition ge_key (a b : Q * Loc) : Prop := fst b <= fst a.

Definition keyed (k : Loc -> Q) (ls : list Loc) : list (Q * Loc) :=
  map (fun l => (k l, l)) ls.

(** What [sort_by_score] returns when every key is there. *)
Definition sorted_by (k : Loc -> Q) (ls : list Loc) : list Loc :=
  map snd (EvaluationAgent.sort_desc (keyed k ls)).

Definition has_type (h : Heap) (t : string) (l : Loc) : bool :=
  String.eqb t (type (h l)).

Definition in_list (l : Loc) (ls : list Loc) : bool := existsb (Nat.eqb l) ls.

(** The unrounded [final_score] of the resource at [l]. *)
Definition final_of (partial_ratio : string -> string -> Q) (topic level : string)
  (h : Heap) (l : Loc) : Q :=
  EvaluationAgent.final_score partial_ratio (h l) topic level.

(** The value written under ['score']. *)
Definition score_of (partial_ratio : string -> string -> Q) (topic level : string)
  (h : Heap) (l : Loc) : Q :=
  round2 (final_of partial_ratio topic level h l).

(** The threshold test of [evaluate]. *)
Definition passes (partial_ratio : string -> string -> Q) (topic level : string)
  (h : Heap) (l : Loc) : bool :=
  Qle_bool EvaluationAgent.min_score_threshold (final_of partial_ratio topic level h l).

(** The store after the loop of [evaluate]. *)
Definition heap_after (partial_ratio : string -> string -> Q) (topic level : string)
  (h : Heap) (resources : list Loc) : Heap :=
  snd (EvaluationAgent.evaluate_loop partial_ratio topic level resources h).

(** The top results of every group, in the order of the groups. *)
Definition cap_groups (k : Loc -> Q) (by_type : EvaluationAgent.ByType) : list Loc :=
  flat_map
    (fun g => firstn EvaluationAgent.max_results_per_category (sorted_by k (snd g)))
    by_type.

(** What [_filter_by_category] returns when every resource has a score. *)
Definition filtered (k : Loc -> Q) (h : Heap) (resources : list Loc) : list Loc :=
  sorted_by k (cap_groups k (EvaluationAgent.group_loop h resources [])).

(** Every group holds resources of its own type only. *)
Definition well_typed (h : Heap) (by_type : EvaluationAgent.ByType) : Prop :=
  forall t ls l, In (t, ls) by_type -> In l ls -> type (h l) = t.

Definition in_unit (x : Q) : Prop := 0 <= x <= 1.

(** What a task adds to [all_resources]. *)
Definition contribution (r : Main.TaskResult) : list ResourceDict :=
  match r with
  | Main.Raised _ => []
  | Main.Returned result => result
  end.

(** The first resource of a list with a given link. *)
Definition first_with_link (u : string) (resources : list ResourceDict)
  : option ResourceDict :=
  find (fun r => String.eqb (link r) u) resources.


(** ** Data for the examples *)

Module Examples.

(** A stand-in for [fuzz.partial_ratio]: 100 when one string occurs in the
    other, which is what the library returns then, and 0 otherwise.  The
    examples use it where the topic occurs in the title and in the text. *)
Definition partial_ratio (a b : string) : Q :=
  if Str.contains a b || Str.contains b a then 100 else 0.

Definition python_basics (t l : string) : ResourceDict :=
  mkResource t "python basics" l "learn python basics" "medium" None.

Definition store (rs : list ResourceDict) : Heap :=
  fun l => nth l rs Main.empty_dict.

(** Agents for the examples: the articles and the docs agents find the same
    page, the other agents find nothing. *)
Definition same_page_agents : Main.Agents :=
  let page t := mkResource t "Python (programming language)"
                  "https://en.wikipedia.org/wiki/Python" "learn python" "wikipedia" None in
  Main.mkAgents
    (fun _ _ => Main.Returned (ArticlesAgent.scrape (Return [page "article"])))
    (fun _ _ => Main.Returned (ArticlesAgent.scrape (Return [page "docs"])))
    (fun _ _ => Main.Returned (ArticlesAgent.scrape (Return [])))
    (fun _ _ => Main.Returned (ArticlesAgent.scrape (Return [])))
    (fun _ _ => Main.Raised "timeout").

End Examples.

(** * The rest of the service *)

(** ** More of [str] *)

Module PyStr.

(** [s.replace(old, new)] for a one-character [old]. *)
Fixpoint replace_char (old : ascii) (new : string) (s : string) : string :=
  match s with
  | EmptyString => EmptyString
  | String c s' =>
      if Ascii.eqb c old then (new ++ replace_char old new s')%string
      else String c (replace_char old new s')
  end.

(** [s[:n]] *)
Fixpoint take (n : nat) (s : string) : string :=
  match n, s with
  | S n', String c s' => String c (take n' s')
  | _, _ => EmptyString
  end.

(** [s.rstrip(c)] for a one-character argument. *)
Fixpoint rstrip_char (c : ascii) (s : string) : string :=
  match s with
  | EmptyString => EmptyString
  | String a s' =>
      match rstrip_char c s' with
      | EmptyString => if Ascii.eqb a c then EmptyString else String a EmptyString
      | r => String a r
      end
  end.

(** The ASCII characters that [str.split()] takes for white space. *)
Definition is_space (c : ascii) : bool :=
  let n := nat_of_ascii c in
  ((9 <=? n)%nat && (n <=? 13)%nat) || ((28 <=? n)%nat && (n <=? 32)%nat).

(** [s.split()]: the maximal runs of characters that are not white space. *)
Fixpoint split_from (cur : option string) (s : string) : list string :=
  match s with
  | EmptyString =>
      match cur with Some w => [w] | None => [] end
  | String c s' =>
      if is_space c then
        match cur with
        | Some w => w :: split_from None s'
        | None => split_from None s'
        end
      else
        split_from
          (Some (Str.snoc (match cur with Some w => w | None => EmptyString end) c)) s'
  end.

Definition split (s : string) : list string := split_from None s.

(** [s.split(sep)] for a separator that is not empty: the pieces between
    the occurrences of [sep], found from left to right.  [skip] counts the
    characters of an occurrence still to pass, [cur] is the piece being
    read. *)
Fixpoint split_at (sep : string) (s : string) (skip : nat) (cur : string) : list string :=
  match s with
  | EmptyString => [cur]
  | String c s' =>
      match skip with
      | S k => split_at sep s' k cur
      | O =>
          if String.prefix sep s
          then cur :: split_at sep s' (String.length sep - 1) EmptyString
          else split_at sep s' 0 (Str.snoc cur c)
      end
  end.

Definition split_on (sep s : string) : list string := split_at sep s 0 EmptyString.

(** [c in s] for a character. *)
Fixpoint has_char (c : ascii) (s : string) : bool :=
  match s with
  | EmptyString => false
  | String a s' => Ascii.eqb a c || has_char c s'
  end.

End PyStr.

(** [d[k] = v] on an insertion-ordered dict. *)
Fixpoint dict_set {V : Type} (d : list (string * V)) (k : string) (v : V)
  : list (string * V) :=
  match d with
  | [] => [(k, v)]
  | (k', v') :: d' =>
      if String.eqb k k' then (k', v) :: d' else (k', v') :: dict_set d' k v
  end.

(** ** What the agents read from the network *)

(** An [a] element with an [href], as the parsing loops use it: its [href],
    its text ([get_text(strip=True)]) and the text of the nearest enclosing
    [p], [div] or [li], when there is one. *)
Record Anchor : Type := mkAnchor {
  href : string;
  text : string;
  parent : option string
}.

(** The outcome of [session.get]: an exception, or a status with what the
    page holds. *)
Inductive Fetched (A : Type) : Type :=
| FetchError (e : string)
| FetchStatus (status : nat) (body : A).
Arguments FetchError {A} e.
Arguments FetchStatus {A} status body.

(** An item of the [search] list of the Wikipedia API; a key may be missing. *)
Record WikiItem : Type := mkWikiItem {
  wiki_title : option string;
  wiki_snippet : option string
}.

Record Web : Type := mkWeb {
  wikipedia_api : string -> Fetched (list WikiItem);
  page : string -> Fetched (list Anchor)
}.

(** ** The rest of [ArticlesAgent] *)

Module ArticlesSearch.

(** The loop of [_search_wikipedia]; [item['title']] raises when the key is
    missing. *)
Fixpoint wikipedia_loop (items : list WikiItem) : Exc (list ResourceDict) :=
  match items with
  | [] => Return []
  | item :: rest =>
      match wiki_title item with
      | None => Raise (KeyError "title")
      | Some t =>
          let article_url :=
            ("https://en.wikipedia.org/wiki/" ++ PyStr.replace_char " " "_" t)%string in
          let article :=
            mkResource "article" t article_url
              (match wiki_snippet item with Some s => s | None => "" end)
              "wikipedia" None in
          articles <- wikipedia_loop rest ;;
          Return (article :: articles)
      end
  end.

Definition _search_wikipedia (response : Fetched (list WikiItem)) : list ResourceDict :=
  match response with
  | FetchStatus status items =>
      if Nat.eqb status 200
      then try_except (wikipedia_loop items) (fun _ => [])
      else []
  | FetchError _ => []
  end.

(** The loop of [_search_medium]. *)
Fixpoint medium_loop (anchors : list Anchor) : list ResourceDict :=
  match anchors with
  | [] => []
  | link :: rest =>
      let href := href link in
      if negb (String.eqb href "") && Str.contains "/@" href
         && negb (Str.contains "?" href)
      then
        let title := text link in
        if negb (String.eqb title "") && (10 <? String.length title)%nat then
          let full_url :=
            if String.prefix "http" href then href
            else ("https://medium.com" ++ href)%string in
          mkResource "article" title full_url title "medium" None :: medium_loop rest
        else medium_loop rest
      else medium_loop rest
  end.

Definition _search_medium (response : Fetched (list Anchor)) : list ResourceDict :=
  match response with
  | FetchStatus status anchors =>
      if Nat.eqb status 200 then firstn 5 (medium_loop anchors) else []
  | FetchError _ => []
  end.

(** The loop of [_search_devto]. *)
Fixpoint devto_loop (anchors : list Anchor) : list ResourceDict :=
  match anchors with
  | [] => []
  | link :: rest =>
      let href := href link in
      if negb (String.eqb href "") && String.prefix "/" href
         && negb (String.prefix "//" href)
      then
        let title := text link in
        if negb (String.eqb title "") && (10 <? String.length title)%nat then
          let full_url := ("https://dev.to" ++ href)%string in
          mkResource "article" title full_url title "devto" None :: devto_loop rest
        else devto_loop rest
      else devto_loop rest
  end.

Definition _search_devto (response : Fetched (list Anchor)) : list ResourceDict :=
  match response with
  | FetchStatus status anchors =>
      if Nat.eqb status 200 then firstn 5 (devto_loop anchors) else []
  | FetchError _ => []
  end.

Definition medium_url (query : string) : string :=
  ("https://medium.com/search?q=" ++ PyStr.replace_char " " "%20" query)%string.

Definition devto_url (query : string) : string :=
  ("https://dev.to/search?q=" ++ PyStr.replace_char " " "%20" query)%string.

Definition search_queries (topic level : string) : list string :=
  [ (topic ++ " " ++ level ++ " article")%string;
    (topic ++ " " ++ level ++ " guide")%string;
    ("learn " ++ topic ++ " " ++ level)%string;
    (topic ++ " tutorial " ++ level)%string ].

(** The loop [for query in search_queries] of [scrape]. *)
Definition searches (web : Web) (topic level : string) : list ResourceDict :=
  flat_map
    (fun query =>
       _search_wikipedia (wikipedia_api web query)
       ++ _search_medium (page web (medium_url query))
       ++ _search_devto (page web (devto_url query)))
    (search_queries topic level).

(** [scrape] on a given web. *)
Definition scrape_web (web : Web) (topic level : string) : list ResourceDict :=
  ArticlesAgent.scrape (Return (searches web topic level)).

End ArticlesSearch.

(** ** [DocsAgent] *)

Module DocsAgent.

Definition _get_doc_sources (topic : string) : list (string * string) :=
  let topic_lower := Str.lower topic in
  let sources := [] in
  let sources :=
    if EvaluationAgent.any_in ["python"; "django"; "flask"; "fastapi"] topic_lower then
      dict_set (dict_set (dict_set sources
        "Python" "https://docs.python.org/3/")
        "Django" "https://docs.djangoproject.com/")
        "FastAPI" "https://fastapi.tiangolo.com/"
    else sources in
  let sources :=
    if EvaluationAgent.any_in ["javascript"; "node"; "react"; "vue"; "angular"] topic_lower then
      dict_set (dict_set (dict_set sources
        "MDN" "https://developer.mozilla.org/")
        "Node.js" "https://nodejs.org/docs/")
        "React" "https://reactjs.org/docs/"
    else sources in
  let sources :=
    if EvaluationAgent.any_in ["java"; "spring"; "maven"] topic_lower then
      dict_set (dict_set sources
        "Oracle Java" "https://docs.oracle.com/javase/")
        "Spring" "https://spring.io/docs"
    else sources in
  let sources :=
    if EvaluationAgent.any_in ["machine learning"; "ml"; "tensorflow"; "pytorch"] topic_lower then
      dict_set (dict_set (dict_set sources
        "TensorFlow" "https://www.tensorflow.org/learn")
        "PyTorch" "https://pytorch.org/docs/")
        "Scikit-learn" "https://scikit-learn.org/stable/"
    else sources in
  let sources :=
    if EvaluationAgent.any_in ["data science"; "pandas"; "numpy"] topic_lower then
      dict_set (dict_set sources
        "Pandas" "https://pandas.pydata.org/docs/")
        "NumPy" "https://numpy.org/doc/"
    else sources in
  let sources :=
    if EvaluationAgent.any_in ["web development"; "html"; "css"] topic_lower then
      dict_set (dict_set sources
        "MDN Web Docs" "https://developer.mozilla.org/")
        "W3Schools" "https://www.w3schools.com/"
    else sources in
  match sources with
  | [] =>
      dict_set (dict_set sources
        "MDN" "https://developer.mozilla.org/")
        "W3Schools" "https://www.w3schools.com/"
  | _ => sources
  end.

(** [_extract_snippet]; nothing in it raises on an element of a parsed page. *)
Definition _extract_snippet (link_element : Anchor) : string :=
  match parent link_element with
  | Some text =>
      if (200 <? String.length text)%nat
      then (PyStr.take 200 text ++ "...")%string
      else text
  | None => text link_element
  end.

(** The loop of [_scrape_doc_source]. *)
Fixpoint doc_loop (source_name source_url : string) (topic_keywords : list string)
  (anchors : list Anchor) : list ResourceDict :=
  match anchors with
  | [] => []
  | link :: rest =>
      let href := href link in
      let title := text link in
      if String.eqb title "" || (String.length title <? 5)%nat then
        doc_loop source_name source_url topic_keywords rest
      else
        let title_lower := Str.lower title in
        if existsb (fun keyword => Str.contains keyword title_lower) topic_keywords then
          if String.prefix "/" href then
            mkResource "docs" title
              (PyStr.rstrip_char "/" source_url ++ href)%string
              (_extract_snippet link) source_name None
            :: doc_loop source_name source_url topic_keywords rest
          else if String.prefix "http" href then
            mkResource "docs" title href (_extract_snippet link) source_name None
            :: doc_loop source_name source_url topic_keywords rest
          else doc_loop source_name source_url topic_keywords rest
        else doc_loop source_name source_url topic_keywords rest
  end.

Definition _scrape_doc_source (response : Fetched (list Anchor))
  (source_name source_url topic level : string) : list ResourceDict :=
  match response with
  | FetchStatus status anchors =>
      if Nat.eqb status 200
      then firstn 10 (doc_loop source_name source_url
                        (PyStr.split (Str.lower topic)) anchors)
      else []
  | FetchError _ => []
  end.

(** The loop over [doc_sources] of [scrape], then the removal of the
    duplicates. *)
Definition scrape_web (web : Web) (topic level : string) : list ResourceDict :=
  ArticlesAgent.scrape
    (Return
       (flat_map
          (fun source =>
             _scrape_doc_source (page web (snd source)) (fst source) (snd source)
               topic level)
          (_get_doc_sources topic))).

End DocsAgent.

(** ** [VideosAgent._search_youtube] *)

Module VideosAgent.

(** [href.split('v=')[1].split('&')[0]]; [None] is the [IndexError] of an
    index that is not there. *)
Definition video_id (href : string) : option string :=
  match nth_error (PyStr.split_on "v=" href) 1 with
  | None => None
  | Some part => nth_error (PyStr.split_on "&" part) 0
  end.

Section Youtube.

(** [_extract_video_description]: it reads the page around the link and
    returns [""] on any error. *)
Variable _extract_video_description : Anchor -> string.

(** The loop of [_search_youtube]. *)
Fixpoint youtube_loop (anchors : list Anchor) : option (list ResourceDict) :=
  match anchors with
  | [] => Some []
  | link :: rest =>
      let href := href link in
      let title := text link in
      if String.eqb title "" || (String.length title <? 10)%nat then youtube_loop rest
      else if String.prefix "/watch?v=" href then
        match video_id href with
        | None => None
        | Some video_id =>
            let full_url := ("https://www.youtube.com/watch?v=" ++ video_id)%string in
            let description := _extract_video_description link in
            match youtube_loop rest with
            | None => None
            | Some videos =>
                Some (mkResource "video" title full_url description "youtube" None
                      :: videos)
            end
        end
      else youtube_loop rest
  end.

(** An exception in the loop is caught outside of it: nothing is returned. *)
Definition _search_youtube (response : Fetched (list Anchor)) : list ResourceDict :=
  match response with
  | FetchStatus status anchors =>
      if Nat.eqb status 200 then
        match youtube_loop anchors with
        | Some videos => firstn 10 videos
        | None => []
        end
      else []
  | FetchError _ => []
  end.

End Youtube.

Definition youtube_url (query : string) : string :=
  ("https://www.youtube.com/results?search_query="
     ++ PyStr.replace_char " " "+" query)%string.

End VideosAgent.

(** ** Authentication ([app/main.py]) *)

Module Security.


End Security.

(** ** Vocabulary of the further properties *)

Definition nodupb (xs : list string) : bool :=
  (fix go (xs : list string) : bool :=
     match xs with
     | [] => true
     | x :: rest => negb (Str.mem x rest) && go rest
     end) xs.

(** The link patterns of [_calculate_credibility_score]. *)
Definition link_patterns : list string :=
  ["wikipedia.org"; "github.com"; "stackoverflow.com"; "docs."; "tutorial"].

(** What the searches of [ArticlesAgent] return. *)
Definition wikipedia_article (r : ResourceDict) : Prop :=
  type r = "article" /\ source r = "wikipedia"
  /\ link r = ("https://en.wikipedia.org/wiki/" ++ PyStr.replace_char " " "_" (title r))%string.

Definition medium_article (r : ResourceDict) : Prop :=
  type r = "article" /\ source r = "medium" /\ raw_text r = title r
  /\ (10 < String.length (title r))%nat
  /\ String.prefix "http" (link r) = true.

Definition devto_article (r : ResourceDict) : Prop :=
  type r = "article" /\ source r = "devto" /\ raw_text r = title r
  /\ (10 < String.length (title r))%nat
  /\ String.prefix "https://dev.to/" (link r) = true.

(** What the loop of [DocsAgent._scrape_doc_source] appends. *)
Definition docs_resource (source_name source_url : string) (topic_keywords : list string)
  (r : ResourceDict) : Prop :=
  type r = "docs" /\ source r = source_name
  /\ (5 <= String.length (title r))%nat
  /\ existsb (fun keyword => Str.contains keyword (Str.lower (title r))) topic_keywords
     = true
  /\ (String.prefix "http" source_url = true -> String.prefix "http" (link r) = true).

(** What the loop of [VideosAgent._search_youtube] appends. *)
Definition youtube_video (r : ResourceDict) : Prop :=
  type r = "video" /\ source r = "youtube"
  /\ (10 <= String.length (title r))%nat
  /\ exists id, link r = ("https://www.youtube.com/watch?v=" ++ id)%string
                /\ PyStr.has_char "&" id = false.

(** The anchors that the loop of [_search_youtube] takes. *)
Definition youtube_anchor (a : Anchor) : bool :=
  negb (String.eqb (text a) "" || (String.length (text a) <? 10)%nat)
  && String.prefix "/watch?v=" (href a).

(** A topic of white space only. *)
Fixpoint all_space (s : string) : bool :=
  match s with
  | EmptyString => true
  | String c s' => PyStr.is_space c && all_space s'
  end.

(** What the cap of [_filter_by_category] takes away. *)
Definition capped_away (k : Loc -> Q) (by_type : EvaluationAgent.ByType) : list Loc :=
  flat_map
    (fun g => skipn EvaluationAgent.max_results_per_category (sorted_by k (snd g)))
    by_type.

(** * Properties *)

(** ** Lists *)

Lemma firstn_In {A : Type} (n : nat) (l : list A) (x : A) :
  In x (firstn n l) -> In x l.
Proof.
  revert l. induction n as [|n IH]; intros [|y l]; simpl; try tauto.
  intros [H | H]; [left; exact H | right; apply IH, H].
Qed.

Lemma Permutation_filter {A : Type} (f : A -> bool) (l l' : list A) :
  Permutation l l' -> Permutation (filter f l) (filter f l').
Proof.
  induction 1 as [|x l l' _ IH|x y l|l l' l'' _ IH1 _ IH2]; simpl.
  - constructor.
  - destruct (f x); [apply perm_skip|]; exact IH.
  - destruct (f x), (f y); try apply Permutation_refl. apply perm_swap.
  - eapply perm_trans; eassumption.
Qed.

(** ** Stable sorting by a key *)

Section SortFacts.

Import EvaluationAgent.

Lemma insert_desc_perm x l : Permutation (insert_desc x l) (x :: l).
Proof.
  induction l as [|y l IH]; simpl.
  - apply Permutation_refl.
  - destruct (Qle_bool (fst y) (fst x)).
    + apply Permutation_refl.
    + eapply perm_trans; [apply perm_skip, IH | apply perm_swap].
Qed.

Lemma sort_desc_perm l : Permutation (sort_desc l) l.
Proof.
  induction l as [|x l IH]; simpl.
  - constructor.
  - eapply perm_trans; [apply insert_desc_perm | apply perm_skip, IH].
Qed.

Lemma insert_desc_sorted x l :
  StronglySorted ge_key l -> StronglySorted ge_key (insert_desc x l).
Proof.
  induction l as [|y l IH]; simpl; intros Hs.
  - repeat constructor.
  - inversion Hs as [|? ? Hs' Hall]; subst.
    destruct (Qle_bool (fst y) (fst x)) eqn:E.
    + apply Qle_bool_iff in E.
      constructor; [exact Hs|].
      constructor; [exact E|].
      eapply Forall_impl; [|exact Hall].
      intros z Hz. unfold ge_key in *. eapply Qle_trans; eauto.
    + assert (Hlt : fst x < fst y).
      { apply Qnot_le_lt. intros H. apply Qle_bool_iff in H. congruence. }
      constructor; [apply IH; exact Hs'|].
      eapply Permutation_Forall.
      * apply Permutation_sym, insert_desc_perm.
      * constructor; [apply Qlt_le_weak, Hlt | exact Hall].
Qed.

Lemma sort_desc_sorted l : StronglySorted ge_key (sort_desc l).
Proof.
  induction l as [|x l IH]; simpl.
  - constructor.
  - apply insert_desc_sorted, IH.
Qed.



Variable k : Loc -> Q.

Lemma keyed_snd ls : map snd (keyed k ls) = ls.
Proof.
  unfold keyed. rewrite map_map. simpl. apply map_id.
Qed.

Lemma sorted_by_perm ls : Permutation (sorted_by k ls) ls.
Proof.
  unfold sorted_by. rewrite <- (keyed_snd ls) at 2.
  apply Permutation_map, sort_desc_perm.
Qed.

Lemma sorted_by_In l ls : In l (sorted_by k ls) <-> In l ls.
Proof.
  split; apply Permutation_in;
    [apply sorted_by_perm | apply Permutation_sym, sorted_by_perm].
Qed.

Lemma keyed_sorted_wf ls : Forall (fun p => fst p = k (snd p)) (sort_desc (keyed k ls)).
Proof.
  eapply Permutation_Forall; [apply Permutation_sym, sort_desc_perm|].
  unfold keyed. apply Forall_forall. intros p Hp.
  apply in_map_iff in Hp. destruct Hp as [l [<- _]]. reflexivity.
Qed.

Lemma map_snd_sorted (kls : list (Q * Loc)) :
  Forall (fun p => fst p = k (snd p)) kls ->
  StronglySorted ge_key kls ->
  StronglySorted (fun a b => k b <= k a) (map snd kls).
Proof.
  induction kls as [|p kls IH]; simpl; intros Hwf Hs.
  - constructor.
  - inversion Hwf as [|? ? Hp Hwf']; subst.
    inversion Hs as [|? ? Hs' Hall]; subst.
    constructor; [apply IH; assumption|].
    apply Forall_forall. intros b Hb.
    apply in_map_iff in Hb. destruct Hb as [p' [<- Hp']].
    rewrite Forall_forall in Hall, Hwf'.
    specialize (Hall _ Hp'). specialize (Hwf' _ Hp').
    unfold ge_key in Hall. rewrite <- Hp, <- Hwf'. exact Hall.
Qed.

Lemma sorted_by_sorted ls : StronglySorted (fun a b => k b <= k a) (sorted_by k ls).
Proof.
  apply map_snd_sorted; [apply keyed_sorted_wf | apply sort_desc_sorted].
Qed.



(** The keys are read from the store. *)
Lemma decorate_keyed (h : Heap) ls :
  (forall l, In l ls -> score (h l) = Some (k l)) ->
  decorate h ls = Return (keyed k ls).
Proof.
  induction ls as [|l ls IH]; simpl; intros H; [reflexivity|].
  unfold get_score. rewrite (H l) by auto. simpl.
  rewrite IH by auto. reflexivity.
Qed.

Lemma sort_by_score_sorted_by (h : Heap) ls :
  (forall l, In l ls -> score (h l) = Some (k l)) ->
  sort_by_score h ls = Return (sorted_by k ls).
Proof.
  intros H. unfold sort_by_score. rewrite decorate_keyed by exact H. reflexivity.
Qed.

End SortFacts.

(** ** Grouping by type *)

Section GroupFacts.

Import EvaluationAgent.

Variable h : Heap.

Lemma by_type_append_get (by_type : ByType) t t' l :
  dict_get (by_type_append by_type t' l) t []
  = if String.eqb t t' then dict_get by_type t [] ++ [l] else dict_get by_type t [].
Proof.
  induction by_type as [|[t0 ls] rest IH]; simpl.
  - destruct (String.eqb t t'); reflexivity.
  - destruct (String.eqb t' t0) eqn:E0; simpl.
    + apply String.eqb_eq in E0. subst t0.
      destruct (String.eqb t t'); reflexivity.
    + rewrite IH.
      destruct (String.eqb t t0) eqn:E1; [|reflexivity].
      apply String.eqb_eq in E1. subst t0.
      rewrite String.eqb_sym, E0. reflexivity.
Qed.

Lemma group_loop_get resources : forall (by_type : ByType) t,
  dict_get (group_loop h resources by_type) t []
  = dict_get by_type t [] ++ filter (has_type h t) resources.
Proof.
  induction resources as [|l rest IH]; intros by_type t; simpl.
  - rewrite app_nil_r. reflexivity.
  - rewrite IH, by_type_append_get. unfold has_type at 2.
    destruct (String.eqb t (type (h l))).
    + rewrite <- app_assoc. reflexivity.
    + reflexivity.
Qed.

Lemma by_type_append_keys (by_type : ByType) t l t' :
  In t' (map fst (by_type_append by_type t l)) <-> In t' (map fst by_type) \/ t' = t.
Proof.
  induction by_type as [|[t0 ls] rest IH]; simpl.
  - intuition.
  - destruct (String.eqb t t0) eqn:E; simpl.
    + apply String.eqb_eq in E. subst t0. intuition.
    + rewrite IH. intuition.
Qed.

Lemma by_type_append_NoDup (by_type : ByType) t l :
  NoDup (map fst by_type) -> NoDup (map fst (by_type_append by_type t l)).
Proof.
  induction by_type as [|[t0 ls] rest IH]; simpl; intros Hnd.
  - repeat constructor. intros [].
  - inversion Hnd as [|? ? Hnotin Hnd']; subst.
    destruct (String.eqb t t0) eqn:E; simpl.
    + constructor; assumption.
    + constructor; [|apply IH; exact Hnd'].
      rewrite by_type_append_keys. intros [Hin | ->]; [contradiction|].
      rewrite String.eqb_refl in E. discriminate.
Qed.

Lemma group_loop_NoDup resources : forall by_type : ByType,
  NoDup (map fst by_type) -> NoDup (map fst (group_loop h resources by_type)).
Proof.
  induction resources as [|l rest IH]; intros by_type Hnd; simpl.
  - exact Hnd.
  - apply IH, by_type_append_NoDup, Hnd.
Qed.

Lemma dict_get_NoDup_In (by_type : ByType) t ls :
  NoDup (map fst by_type) -> In (t, ls) by_type -> dict_get by_type t [] = ls.
Proof.
  induction by_type as [|[t0 ls0] rest IH]; simpl; intros Hnd Hin; [contradiction|].
  inversion Hnd as [|? ? Hnotin Hnd']; subst.
  destruct Hin as [Heq | Hin].
  - inversion Heq; subst. rewrite String.eqb_refl. reflexivity.
  - destruct (String.eqb t t0) eqn:E.
    + apply String.eqb_eq in E. subst t0.
      exfalso. apply Hnotin. apply in_map_iff. exists (t, ls). auto.
    + apply IH; assumption.
Qed.

Lemma dict_get_In (by_type : ByType) t :
  dict_get by_type t [] <> [] -> In (t, dict_get by_type t []) by_type.
Proof.
  induction by_type as [|[t0 ls0] rest IH]; simpl; intros Hne.
  - congruence.
  - destruct (String.eqb t t0) eqn:E.
    + apply String.eqb_eq in E. subst t0. left. reflexivity.
    + right. apply IH, Hne.
Qed.

(** The groups of [by_type] after the grouping loop. *)
Lemma group_loop_groups resources t ls :
  In (t, ls) (group_loop h resources []) -> ls = filter (has_type h t) resources.
Proof.
  intros Hin.
  rewrite <- (dict_get_NoDup_In (group_loop h resources []) t ls).
  - rewrite group_loop_get. reflexivity.
  - apply group_loop_NoDup. constructor.
  - exact Hin.
Qed.

Lemma group_loop_covers resources l :
  In l resources ->
  In (type (h l), filter (has_type h (type (h l))) resources) (group_loop h resources []).
Proof.
  intros Hin.
  pose proof (group_loop_get resources [] (type (h l))) as Hget. simpl in Hget.
  rewrite <- Hget. apply dict_get_In. rewrite Hget.
  intros Hnil.
  assert (Hl : In l (filter (has_type h (type (h l))) resources)).
  { apply filter_In. split; [exact Hin|]. unfold has_type. apply String.eqb_refl. }
  rewrite Hnil in Hl. exact Hl.
Qed.

End GroupFacts.

(** ** What [evaluate] computes *)

Section EvaluateFacts.

Import EvaluationAgent.

Variable partial_ratio : string -> string -> Q.
Variables topic level : string.

Lemma in_list_In l ls : in_list l ls = true <-> In l ls.
Proof.
  unfold in_list. rewrite existsb_exists. split.
  - intros [x [Hx E]]. apply Nat.eqb_eq in E. subst x. exact Hx.
  - intros H. exists l. split; [exact H | apply Nat.eqb_refl].
Qed.

(** The scores read the title, the text, the source and the link only. *)
Lemma final_score_set_score r s :
  final_score partial_ratio (set_score r s) topic level
  = final_score partial_ratio r topic level.
Proof. reflexivity. Qed.

Lemma set_score_twice r s s' : set_score (set_score r s) s' = set_score r s'.
Proof. reflexivity. Qed.

(** The store after the loop: every resource of the list carries its score,
    the others are as they were. *)
Lemma evaluate_loop_heap resources : forall h l,
  snd (evaluate_loop partial_ratio topic level resources h) l
  = if in_list l resources then set_score (h l) (score_of partial_ratio topic level h l) else h l.
Proof.
  induction resources as [|l0 rest IH]; intros h l; [reflexivity|].
  simpl evaluate_loop.
  set (h1 := upd h l0 (set_score (h l0) (round2 (final_score partial_ratio (h l0) topic level)))).
  specialize (IH h1 l).
  destruct (evaluate_loop partial_ratio topic level rest h1) as [ev h'] eqn:E.
  assert (Hsnd : snd (if Qle_bool min_score_threshold
                            (final_score partial_ratio (h l0) topic level)
                      then (l0 :: ev, h') else (ev, h')) = h').
  { destruct (Qle_bool _ _); reflexivity. }
  rewrite Hsnd. simpl in IH. rewrite IH.
  unfold in_list. simpl existsb. fold (in_list l rest).
  unfold score_of, final_of, h1, upd.
  destruct (Nat.eqb l l0) eqn:El.
  - apply Nat.eqb_eq in El. subst l0. simpl.
    destruct (in_list l rest); reflexivity.
  - simpl. reflexivity.
Qed.

Lemma evaluate_loop_kept resources : forall h,
  fst (evaluate_loop partial_ratio topic level resources h)
  = filter (passes partial_ratio topic level h) resources.
Proof.
  induction resources as [|l0 rest IH]; intros h; [reflexivity|].
  simpl evaluate_loop.
  set (h1 := upd h l0 (set_score (h l0) (round2 (final_score partial_ratio (h l0) topic level)))).
  specialize (IH h1).
  destruct (evaluate_loop partial_ratio topic level rest h1) as [ev h'] eqn:E.
  simpl in IH.
  assert (Hext : filter (passes partial_ratio topic level h1) rest = filter (passes partial_ratio topic level h) rest).
  { apply filter_ext. intros l. unfold passes, final_of, h1, upd.
    destruct (Nat.eqb l l0) eqn:El; [|reflexivity].
    apply Nat.eqb_eq in El. subst l0. reflexivity. }
  simpl filter. unfold passes at 1. unfold final_of.
  destruct (Qle_bool _ _); simpl; rewrite IH, Hext; reflexivity.
Qed.

Lemma heap_after_type h resources l :
  type (heap_after partial_ratio topic level h resources l) = type (h l).
Proof.
  unfold heap_after. rewrite evaluate_loop_heap.
  destruct (in_list l resources); reflexivity.
Qed.

Lemma heap_after_score h resources l :
  In l resources -> score (heap_after partial_ratio topic level h resources l) = Some (score_of partial_ratio topic level h l).
Proof.
  intros Hin. unfold heap_after. rewrite evaluate_loop_heap.
  apply in_list_In in Hin. rewrite Hin. reflexivity.
Qed.

Lemma take_loop_spec (k : Loc -> Q) (h : Heap) (by_type : ByType) :
  (forall t ls l, In (t, ls) by_type -> In l ls -> score (h l) = Some (k l)) ->
  forall filtered_resources,
    take_loop h by_type filtered_resources
    = Return (filtered_resources ++ cap_groups k by_type).
Proof.
  induction by_type as [|[t ls] rest IH]; intros Hk acc; simpl.
  - rewrite app_nil_r. reflexivity.
  - rewrite (sort_by_score_sorted_by k) by (intros l Hl; eapply Hk; [left; reflexivity | exact Hl]).
    simpl. rewrite IH.
    + rewrite <- app_assoc. reflexivity.
    + intros t' ls' l Hin Hl. eapply Hk; [right; exact Hin | exact Hl].
Qed.

Lemma cap_groups_In (k : Loc -> Q) (by_type : ByType) l :
  In l (cap_groups k by_type) ->
  exists t ls, In (t, ls) by_type /\ In l ls.
Proof.
  unfold cap_groups. rewrite in_flat_map. intros [[t ls] [Hg Hl]].
  exists t, ls. split; [exact Hg|].
  cbn [snd] in Hl. apply (sorted_by_In k). eapply firstn_In; exact Hl.
Qed.

Lemma filter_by_category_spec (k : Loc -> Q) (h : Heap) resources :
  (forall l, In l resources -> score (h l) = Some (k l)) ->
  _filter_by_category h resources = filtered k h resources.
Proof.
  intros Hk. unfold _filter_by_category, filter_body.
  assert (Hg : forall t ls l, In (t, ls) (group_loop h resources []) -> In l ls ->
                              In l resources).
  { intros t ls l Hin Hl. apply group_loop_groups in Hin. subst ls.
    apply filter_In in Hl. tauto. }
  rewrite (take_loop_spec k) by (intros t ls l Hin Hl; eauto).
  simpl.
  rewrite (sort_by_score_sorted_by k).
  - reflexivity.
  - intros l Hl. apply cap_groups_In in Hl. destruct Hl as [t [ls [Hin Hl]]]. eauto.
Qed.

(** [evaluate] never takes an exception path: it returns the capped,
    sorted list of the resources that pass the threshold. *)
Theorem evaluate_spec (h : Heap) (resources : list Loc) :
  evaluate partial_ratio h resources topic level
  = (filtered (score_of partial_ratio topic level h) (heap_after partial_ratio topic level h resources)
       (sorted_by (score_of partial_ratio topic level h) (filter (passes partial_ratio topic level h) resources)),
     heap_after partial_ratio topic level h resources).
Proof.
  unfold evaluate.
  pose proof (evaluate_loop_kept resources h) as Hkept.
  pose proof (heap_after_score h resources) as Hscore.
  unfold heap_after in *.
  destruct (evaluate_loop partial_ratio topic level resources h) as [ev h'] eqn:E.
  simpl in Hkept, Hscore |- *. subst ev.
  assert (Hk : forall l, In l (filter (passes partial_ratio topic level h) resources) ->
                         score (h' l) = Some (score_of partial_ratio topic level h l)).
  { intros l Hl. apply filter_In in Hl. apply Hscore. tauto. }
  rewrite (sort_by_score_sorted_by (score_of partial_ratio topic level h)) by exact Hk.
  simpl.
  rewrite (filter_by_category_spec (score_of partial_ratio topic level h)).
  - reflexivity.
  - intros l Hl. apply Hk. apply (sorted_by_In (score_of partial_ratio topic level h)). exact Hl.
Qed.

End EvaluateFacts.

(** ** The capped groups *)

Section CapFacts.

Import EvaluationAgent.

Variable h : Heap.
Variable k : Loc -> Q.

Lemma filter_none {A : Type} (f : A -> bool) (l : list A) :
  (forall x, In x l -> f x = false) -> filter f l = [].
Proof.
  induction l as [|x l IH]; simpl; intros H; [reflexivity|].
  rewrite (H x) by auto. apply IH. auto.
Qed.



Lemma cap_groups_other_type (by_type : ByType) t :
  well_typed h by_type ->
  ~ In t (map fst by_type) ->
  filter (has_type h t) (cap_groups k by_type) = [].
Proof.
  intros Hwt Hnotin. apply filter_none. intros l Hl.
  apply cap_groups_In in Hl. destruct Hl as [t' [ls [Hin Hl]]].
  unfold has_type. rewrite (Hwt _ _ _ Hin Hl).
  apply String.eqb_neq. intros ->. apply Hnotin.
  apply in_map_iff. exists (t', ls). auto.
Qed.

(** Of the capped groups, the resources of type [t] are the top ones of the
    group of [t]. *)
Lemma cap_groups_by_type (by_type : ByType) t :
  well_typed h by_type ->
  NoDup (map fst by_type) ->
  filter (has_type h t) (cap_groups k by_type)
  = filter (has_type h t)
      (firstn max_results_per_category (sorted_by k (dict_get by_type t []))).
Proof.
  induction by_type as [|[t0 ls] rest IH]; intros Hwt Hnd; [reflexivity|].
  inversion Hnd as [|? ? Hnotin Hnd']; subst.
  assert (Hwt' : well_typed h rest).
  { intros t' ls' l Hin Hl. eapply Hwt; [right; exact Hin | exact Hl]. }
  unfold cap_groups in *. cbn [flat_map snd dict_get]. rewrite filter_app.
  destruct (String.eqb t t0) eqn:E.
  - apply String.eqb_eq in E. subst t0.
    fold (cap_groups k rest).
    rewrite (cap_groups_other_type rest t Hwt' Hnotin), app_nil_r. reflexivity.
  - rewrite IH by assumption.
    rewrite filter_none; [reflexivity|].
    intros l Hl. apply firstn_In in Hl. apply (proj1 (sorted_by_In k _ _)) in Hl.
    unfold has_type. rewrite (Hwt t0 ls l (or_introl eq_refl) Hl). exact E.
Qed.

Lemma group_loop_well_typed resources : well_typed h (group_loop h resources []).
Proof.
  intros t ls l Hin Hl. apply group_loop_groups in Hin. subst ls.
  apply filter_In in Hl. destruct Hl as [_ Hl]. unfold has_type in Hl.
  apply String.eqb_eq in Hl. symmetry. exact Hl.
Qed.

(** The resources of type [t] that [_filter_by_category] keeps. *)
Lemma filtered_by_type resources t :
  filter (has_type h t) (cap_groups k (group_loop h resources []))
  = filter (has_type h t)
      (firstn max_results_per_category (sorted_by k (filter (has_type h t) resources))).
Proof.
  rewrite cap_groups_by_type.
  - rewrite group_loop_get. reflexivity.
  - apply group_loop_well_typed.
  - apply group_loop_NoDup. constructor.
Qed.

Lemma filter_length_le {A : Type} (f : A -> bool) (l : list A) :
  (length (filter f l) <= length l)%nat.
Proof.
  induction l as [|x l IH]; simpl; [lia|]. destruct (f x); simpl; lia.
Qed.

Lemma filtered_cap resources t :
  (length (filter (has_type h t) (filtered k h resources))
   <= max_results_per_category)%nat.
Proof.
  unfold filtered.
  rewrite (Permutation_length
             (Permutation_filter _ _ _ (sorted_by_perm k _))).
  rewrite filtered_by_type.
  eapply Nat.le_trans; [apply filter_length_le | apply firstn_le_length].
Qed.

End CapFacts.

(** ** More on lists and rounding *)




Lemma round_half_even_ge_floor (x : Q) : (Qfloor x <= round_half_even x)%Z.
Proof.
  unfold round_half_even.
  destruct (Qcompare _ _); [destruct (Z.even _)| |]; lia.
Qed.

Lemma round_half_even_le (x : Q) (n : Z) :
  x <= inject_Z n -> (round_half_even x <= n)%Z.
Proof.
  intros Hx. unfold round_half_even.
  pose proof (Qfloor_resp_le _ _ Hx) as Hf. rewrite Qfloor_Z in Hf.
  assert (Hcase : (Qfloor x < n)%Z \/ Qfloor x = n) by lia.
  destruct Hcase as [Hlt | Heq].
  - destruct (Qcompare _ _); [destruct (Z.even _)| |]; lia.
  - assert (Hr : x - inject_Z (Qfloor x) <= 0).
    { rewrite Heq. lra. }
    destruct (Qcompare (x - inject_Z (Qfloor x)) (1 # 2)) eqn:E.
    + apply Qeq_alt in E. lra.
    + lia.
    + apply Qgt_alt in E. lra.
Qed.

Lemma round2_ge_threshold (x : Q) : 0.4 <= x -> 0.4 <= round2 x.
Proof.
  intros Hx. unfold round2.
  assert (H40 : (40 <= round_half_even (x * 100))%Z).
  { eapply Z.le_trans; [|apply round_half_even_ge_floor].
    rewrite <- (Qfloor_Z 40). apply Qfloor_resp_le.
    change (inject_Z 40) with 40. lra. }
  unfold Qle. simpl. lia.
Qed.

Lemma round2_unit (x : Q) : in_unit x -> in_unit (round2 x).
Proof.
  intros [H0 H1]. unfold round2, in_unit.
  assert (Hlo : (0 <= round_half_even (x * 100))%Z).
  { eapply Z.le_trans; [|apply round_half_even_ge_floor].
    rewrite <- (Qfloor_Z 0). apply Qfloor_resp_le.
    change (inject_Z 0) with 0. lra. }
  assert (Hhi : (round_half_even (x * 100) <= 100)%Z).
  { apply round_half_even_le. change (inject_Z 100) with 100. lra. }
  split; unfold Qle; simpl; lia.
Qed.

(** ** What [_filter_by_category] keeps *)

Section FilteredFacts.

Import EvaluationAgent.

Variable h : Heap.
Variable k : Loc -> Q.

Lemma filtered_In resources l : In l (filtered k h resources) -> In l resources.
Proof.
  unfold filtered. intros Hl.
  apply (proj1 (sorted_by_In _ _ _)) in Hl.
  apply cap_groups_In in Hl. destruct Hl as [t [ls [Hin Hl]]].
  apply group_loop_groups in Hin. subst ls.
  apply filter_In in Hl. tauto.
Qed.



End FilteredFacts.

(** ** The evaluation engine: cap, threshold, order, frame *)

Section EvaluationClaims.

Import EvaluationAgent.

Variable partial_ratio : string -> string -> Q.

(** C4.  In the list that [evaluate] returns, no type occurs more than
    [max_results_per_category] = 5 times. *)
Theorem C4_category_cap (h : Heap) (resources : list Loc) (topic level t : string) :
  let out := fst (evaluate partial_ratio h resources topic level) in
  let h' := snd (evaluate partial_ratio h resources topic level) in
  max_results_per_category = 5%nat
  /\ (length (filter (fun l => String.eqb t (type (h' l))) out) <= 5)%nat.
Proof.
  rewrite evaluate_spec. cbn [fst snd]. split; [reflexivity|].
  apply (filtered_cap (heap_after partial_ratio topic level h resources)).
Qed.




End EvaluationClaims.



(** ** The ranges of the scores *)

Section ScoreRanges.

Import EvaluationAgent.

Variable partial_ratio : string -> string -> Q.
Hypothesis partial_ratio_range : forall a b, 0 <= partial_ratio a b <= 100.

Lemma nat_Q_S n : nat_Q (S n) == nat_Q n + 1.
Proof.
  unfold nat_Q. rewrite Nat2Z.inj_succ, <- Z.add_1_r, inject_Z_plus. reflexivity.
Qed.

Lemma nat_Q_nonneg n : 0 <= nat_Q n.
Proof.
  induction n as [|n IH]; [unfold nat_Q, Qle; simpl; lia | rewrite nat_Q_S; lra].
Qed.

Lemma nat_Q_pos n : n <> O -> 0 < nat_Q n.
Proof.
  destruct n as [|n]; [congruence|]. intros _.
  rewrite nat_Q_S. pose proof (nat_Q_nonneg n). lra.
Qed.

Lemma title_score_loop_bounds topic_keywords title : forall acc,
  acc <= title_score_loop topic_keywords title acc
  /\ title_score_loop topic_keywords title acc <= acc + nat_Q (length topic_keywords).
Proof.
  induction topic_keywords as [|kw rest IH]; intros acc; simpl.
  - unfold nat_Q. simpl. change (inject_Z 0) with 0. lra.
  - change (inject_Z (Z.of_nat (S (length rest)))) with (nat_Q (S (length rest))).
    pose proof (nat_Q_S (length rest)) as HS.
    destruct (Str.contains kw title); [destruct (_ || _)|].
    + destruct (IH (acc + 1.0)). lra.
    + destruct (IH (acc + 0.7)). lra.
    + destruct (IH acc). lra.
Qed.

Lemma content_score_loop_bounds topic_keywords raw_text : forall acc,
  acc <= content_score_loop topic_keywords raw_text acc
  /\ content_score_loop topic_keywords raw_text acc
     <= acc + nat_Q (length topic_keywords).
Proof.
  induction topic_keywords as [|kw rest IH]; intros acc; simpl.
  - unfold nat_Q. simpl. change (inject_Z 0) with 0. lra.
  - change (inject_Z (Z.of_nat (S (length rest)))) with (nat_Q (S (length rest))).
    pose proof (nat_Q_S (length rest)) as HS.
    destruct (Str.contains kw raw_text).
    + destruct (IH (acc + 0.5)). lra.
    + destruct (IH acc). lra.
Qed.

Lemma div_unit a n : n <> O -> 0 <= a -> a <= nat_Q n -> in_unit (a / nat_Q n).
Proof.
  intros Hn H0 H1. pose proof (nat_Q_pos n Hn) as Hpos. split.
  - apply Qle_shift_div_l; [exact Hpos | lra].
  - apply Qle_shift_div_r; [exact Hpos | lra].
Qed.

Lemma relevance_unit resource topic :
  in_unit (_calculate_relevance_score partial_ratio resource topic).
Proof.
  unfold _calculate_relevance_score, relevance_body.
  set (kws := Str.findall_words (Str.lower topic)).
  set (ti := Str.lower (title resource)).
  set (tx := Str.lower (raw_text resource)).
  unfold py_div.
  destruct (Nat.eqb (length kws) 0) eqn:E; simpl.
  - unfold in_unit. lra.
  - apply Nat.eqb_neq in E.
    fold (nat_Q (length kws)).
    destruct (title_score_loop_bounds kws ti 0) as [Ht0 Ht1].
    destruct (content_score_loop_bounds kws tx 0) as [Hc0 Hc1].
    destruct (div_unit (title_score_loop kws ti 0) (length kws) E) as [Ha Hb];
      [lra | lra |].
    destruct (div_unit (content_score_loop kws tx 0) (length kws) E) as [Hc Hd];
      [lra | lra |].
    destruct (partial_ratio_range (Str.lower topic) ti) as [Hp0 Hp1].
    destruct (partial_ratio_range (Str.lower topic) tx) as [Hq0 Hq1].
    assert (Hf1 : 0 <= partial_ratio (Str.lower topic) ti / 100).
    { apply Qle_shift_div_l; lra. }
    assert (Hf2 : 0 <= partial_ratio (Str.lower topic) tx / 100).
    { apply Qle_shift_div_l; lra. }
    split.
    + apply Q.min_glb; lra.
    + eapply Qle_trans; [apply Q.le_min_r | lra].
Qed.

Lemma clamp_unit b : in_unit (Qmax 0.0 (Qmin b 1.0)).
Proof.
  split.
  - eapply Qle_trans; [|apply Q.le_max_l]. lra.
  - apply Q.max_lub; [lra|]. eapply Qle_trans; [apply Q.le_min_r | lra].
Qed.

Lemma depth_unit resource level :
  in_unit (_calculate_content_depth_score resource level).
Proof.
  unfold _calculate_content_depth_score.
  destruct (level_loop _ _ _ _) as [level_indicators total_checks].
  apply clamp_unit.
Qed.

Lemma dict_get_Forall {V : Type} (P : V -> Prop) (d : list (string * V)) key default :
  Forall (fun kv => P (snd kv)) d -> P default -> P (dict_get d key default).
Proof.
  induction d as [|[k' v] d IH]; simpl; intros Hd Hdef; [exact Hdef|].
  inversion Hd; subst. destruct (String.eqb key k'); auto.
Qed.

Lemma source_credibility_unit key : in_unit (dict_get source_credibility key 0.5).
Proof.
  apply dict_get_Forall.
  - unfold source_credibility.
    repeat (constructor; [unfold in_unit; simpl; lra|]). constructor.
  - unfold in_unit. lra.
Qed.

Lemma credibility_unit resource : in_unit (_calculate_credibility_score resource).
Proof.
  unfold _calculate_credibility_score.
  destruct (source_credibility_unit (Str.lower (source resource))) as [H0 H1].
  assert (Hmax : forall c, 0 <= c -> c <= 1 ->
            in_unit (Qmax (dict_get source_credibility (Str.lower (source resource)) 0.5) c)).
  { intros c Hc0 Hc1. split.
    - eapply Qle_trans; [exact H0 | apply Q.le_max_l].
    - apply Q.max_lub; assumption. }
  repeat match goal with
         | |- context [if ?b then _ else _] => destruct b
         end;
    try (apply Hmax; lra).
  split; assumption.
Qed.

Lemma final_score_unit resource topic level :
  in_unit (final_score partial_ratio resource topic level).
Proof.
  unfold final_score.
  destruct (relevance_unit resource topic).
  destruct (depth_unit resource level).
  destruct (credibility_unit resource).
  unfold in_unit. lra.
Qed.

End ScoreRanges.

(** ** Topics without keywords *)





(** ** The claims on the scores *)

Section ScoreClaims.

Import EvaluationAgent.

Variable partial_ratio : string -> string -> Q.

(** C6.  With [fuzz.partial_ratio] between 0 and 100, the relevance, depth
    and credibility scores and the [final_score] of every resource are in
    [[0,1]], the depth score with its bonus of 0.2 and its penalty of 0.3
    too, and so is the rounded score that [evaluate] stores on every
    resource of its input. *)
Theorem C6_scores_in_unit_interval
  (partial_ratio_range : forall a b, 0 <= partial_ratio a b <= 100)
  (h : Heap) (resources : list Loc) (topic level : string) :
  (forall resource,
     in_unit (_calculate_relevance_score partial_ratio resource topic)
     /\ in_unit (_calculate_content_depth_score resource level)
     /\ in_unit (_calculate_credibility_score resource)
     /\ in_unit (final_score partial_ratio resource topic level)
     /\ in_unit (round2 (final_score partial_ratio resource topic level)))
  /\ (forall l, In l resources ->
        exists s,
          score (snd (evaluate partial_ratio h resources topic level) l) = Some s
          /\ in_unit s).
Proof.
  split.
  - intros resource.
    pose proof (final_score_unit partial_ratio partial_ratio_range resource topic level).
    repeat split;
      try apply (relevance_unit partial_ratio partial_ratio_range);
      try apply depth_unit; try apply credibility_unit;
      try apply round2_unit; try apply H; assumption.
  - intros l Hl. rewrite evaluate_spec. cbn [snd].
    exists (score_of partial_ratio topic level h l). split.
    + apply heap_after_score, Hl.
    + apply round2_unit, final_score_unit, partial_ratio_range.
Qed.



End ScoreClaims.

Lemma partial_ratio_example_range a b : 0 <= Examples.partial_ratio a b <= 100.
Proof.
  unfold Examples.partial_ratio. destruct (_ || _); split; unfold Qle; simpl; lia.
Qed.

Lemma C6_witness :
  (forall a b, 0 <= Examples.partial_ratio a b <= 100)
  /\ in_unit (EvaluationAgent.final_score Examples.partial_ratio
                (Examples.python_basics "article" "https://medium.com/p")
                "python" "beginner").
Proof.
  split; [exact partial_ratio_example_range|].
  destruct (C6_scores_in_unit_interval Examples.partial_ratio
              partial_ratio_example_range (Examples.store []) [] "python" "beginner")
    as [Hscores _].
  destruct (Hscores (Examples.python_basics "article" "https://medium.com/p"))
    as [_ [_ [_ [Hfinal _]]]].
  exact Hfinal.
Defined.



(** ** De-duplication inside an agent *)

Section UniqueFacts.

Import ArticlesAgent.

Lemma mem_In x xs : Str.mem x xs = true <-> In x xs.
Proof.
  unfold Str.mem. rewrite existsb_exists. split.
  - intros [y [Hy E]]. apply String.eqb_eq in E. subst y. exact Hy.
  - intros H. exists x. split; [exact H | apply String.eqb_refl].
Qed.

Lemma unique_loop_subset resources : forall seen_urls r,
  In r (unique_loop resources seen_urls) ->
  In r resources /\ ~ In (link r) seen_urls.
Proof.
  induction resources as [|r0 rest IH]; simpl; intros seen r Hr; [contradiction|].
  destruct (Str.mem (link r0) seen) eqn:E.
  - destruct (IH _ _ Hr). auto.
  - destruct Hr as [<- | Hr].
    + split; [auto|]. intros Hin. apply mem_In in Hin. congruence.
    + destruct (IH _ _ Hr) as [H1 H2]. split; [auto|].
      intros Hin. apply H2. right. exact Hin.
Qed.

Lemma unique_loop_NoDup resources : forall seen_urls,
  NoDup (map link (unique_loop resources seen_urls)).
Proof.
  induction resources as [|r0 rest IH]; simpl; intros seen; [constructor|].
  destruct (Str.mem (link r0) seen) eqn:E; [apply IH|].
  simpl. constructor; [|apply IH].
  intros Hin. apply in_map_iff in Hin. destruct Hin as [r [Hlink Hr]].
  apply unique_loop_subset in Hr. destruct Hr as [_ Hr].
  apply Hr. left. symmetry. exact Hlink.
Qed.

Lemma unique_loop_first resources : forall seen_urls u,
  first_with_link u (unique_loop resources seen_urls)
  = if Str.mem u seen_urls then None else first_with_link u resources.
Proof.
  unfold first_with_link.
  induction resources as [|r0 rest IH]; simpl; intros seen u.
  - destruct (Str.mem u seen); reflexivity.
  - destruct (Str.mem (link r0) seen) eqn:E.
    + rewrite IH. destruct (Str.mem u seen) eqn:Eu; [reflexivity|].
      destruct (String.eqb (link r0) u) eqn:El; [|reflexivity].
      apply String.eqb_eq in El. congruence.
    + simpl. destruct (String.eqb (link r0) u) eqn:El.
      * apply String.eqb_eq in El. subst u. rewrite E. reflexivity.
      * rewrite IH. unfold Str.mem at 1. simpl.
        rewrite String.eqb_sym, El. reflexivity.
Qed.

End UniqueFacts.

(** ** The endpoint *)

Section EndpointFacts.

Import Main.

Lemma collect_loop_fst results : forall i,
  fst (collect_loop i results) = flat_map contribution results.
Proof.
  induction results as [|[e | result] rest IH]; intros i; simpl; [reflexivity| |];
    specialize (IH (S i)); destruct (collect_loop (S i) rest) as [rs log];
    simpl in *; rewrite IH; reflexivity.
Qed.


Lemma format_resources_ok (k : Loc -> Q) (h : Heap) ls :
  (forall l, In l ls -> score (h l) = Some (k l)) ->
  format_resources h ls
  = Return (map (fun l => mkItem (type (h l)) (title (h l)) (link (h l)) (k l)) ls).
Proof.
  induction ls as [|l ls IH]; simpl; intros H; [reflexivity|].
  unfold get_score. rewrite (H l) by auto. simpl.
  rewrite IH by auto. reflexivity.
Qed.


End EndpointFacts.

Section EndpointClaims.

Import Main.

Variable partial_ratio : string -> string -> Q.
Variable agents : Agents.

Lemma scrape_body_valid request :
  Str.mem (Str.lower (level request)) valid_levels = true ->
  let results := tasks agents request in
  let store := alloc (flat_map contribution results) in
  let ev := EvaluationAgent.evaluate partial_ratio (snd store) (fst store)
              (topic request) (level request) in
  scrape_body partial_ratio agents request
  = (items <- format_resources (snd ev) (fst ev) ;;
     Return (mkResponse
               ("Learning resources for " ++ topic request ++ " at "
                  ++ level request ++ " level")%string
               items),
     map TaskStarted (seq 0 (length results)) ++ snd (collect_loop 0 results)).
Proof.
  intros Hlevel. cbv zeta. unfold scrape_body. rewrite Hlevel. cbn [negb].
  rewrite <- (collect_loop_fst (tasks agents request) 0).
  destruct (collect_loop 0 (tasks agents request)) as [rs log]. cbn [fst snd].
  unfold alloc. cbn [fst snd].
  destruct (EvaluationAgent.evaluate _ _ _ _ _) as [out h']. reflexivity.
Qed.



(** C1, as amended.  Inside one agent the results are de-duplicated by link:
    the links of what [scrape] returns are pairwise distinct, and for every
    link the resource kept is the first one found with it.  The endpoint
    then concatenates what the tasks returned, in registration order, and
    drops nothing. *)
Theorem C1_dedup_inside_agent (found : list ResourceDict) (request : ScrapeRequest) :
  let unique_resources := ArticlesAgent.scrape (Return found) in
  NoDup (map link unique_resources)
  /\ (forall r, In r unique_resources -> In r found)
  /\ (forall u, first_with_link u unique_resources = first_with_link u found)
  /\ all_resources agents request = flat_map contribution (tasks agents request).
Proof.
  cbv zeta. unfold ArticlesAgent.scrape. cbn [bind try_except].
  split; [apply unique_loop_NoDup|]. split; [|split].
  - intros r Hr. apply unique_loop_subset in Hr. tauto.
  - intros u. rewrite unique_loop_first. reflexivity.
  - apply collect_loop_fst.
Qed.

End EndpointClaims.

(** C1 as stated fails: the same link comes from two agents and both
    entries reach the evaluation, and the response. *)
Lemma C1_counterexample :
  let request := Main.mkRequest "python" "beginner" in
  map link (Main.all_resources Examples.same_page_agents request)
  = ["https://en.wikipedia.org/wiki/Python"; "https://en.wikipedia.org/wiki/Python"]
  /\ ~ NoDup (map link (Main.all_resources Examples.same_page_agents request))
  /\ exists response,
       fst (Main.scrape_resources Examples.partial_ratio Examples.same_page_agents request)
       = Return response
       /\ map Main.item_link (Main.resources response)
          = ["https://en.wikipedia.org/wiki/Python";
             "https://en.wikipedia.org/wiki/Python"].
Proof.
  split; [reflexivity|]. split.
  - intros H. inversion H as [|? ? Hnotin _]; subst. apply Hnotin. left. reflexivity.
  - eexists. split; vm_compute; reflexivity.
Qed.



(** * Further properties *)

(** ** Tighter ranges of the scores *)

Section TighterRanges.

Import EvaluationAgent.

Variable partial_ratio : string -> string -> Q.

Lemma content_score_loop_half topic_keywords raw_text : forall acc,
  content_score_loop topic_keywords raw_text acc
  <= acc + 0.5 * nat_Q (length topic_keywords).
Proof.
  induction topic_keywords as [|kw rest IH]; intros acc; simpl.
  - unfold nat_Q. simpl. change (inject_Z 0) with 0. lra.
  - change (inject_Z (Z.of_nat (S (length rest)))) with (nat_Q (S (length rest))).
    pose proof (nat_Q_S (length rest)) as HS.
    destruct (Str.contains kw raw_text).
    + specialize (IH (acc + 0.5)). lra.
    + specialize (IH acc). lra.
Qed.

Lemma source_credibility_floor key : 0.5 <= dict_get source_credibility key 0.5.
Proof.
  apply (dict_get_Forall (fun v => 0.5 <= v)).
  - unfold source_credibility.
    repeat (constructor; [simpl; lra|]). constructor.
  - lra.
Qed.

(** X1.  The credibility score is never below 0.5, the value of an unknown source,
    and never above 1. *)
Theorem credibility_at_least_half (resource : ResourceDict) :
  0.5 <= _calculate_credibility_score resource
  /\ _calculate_credibility_score resource <= 1.
Proof.
  split; [|apply credibility_unit].
  unfold _calculate_credibility_score.
  pose proof (source_credibility_floor (Str.lower (source resource))) as Hs.
  repeat match goal with
         | |- context [if ?b then _ else _] => destruct b
         end;
    try (eapply Qle_trans; [exact Hs | apply Q.le_max_l]).
  exact Hs.
Qed.

(** X2.  With [fuzz.partial_ratio] at most 100 the relevance score is at most 0.9,
    so that the cap [min(relevance, 1.0)] never cuts, and the [final_score]
    is at most 0.96. *)
Theorem relevance_below_cap
  (partial_ratio_le : forall a b, partial_ratio a b <= 100)
  (resource : ResourceDict) (topic level : string) :
  _calculate_relevance_score partial_ratio resource topic <= 0.9
  /\ final_score partial_ratio resource topic level <= 0.96.
Proof.
  assert (Hrel : _calculate_relevance_score partial_ratio resource topic <= 0.9).
  { unfold _calculate_relevance_score, relevance_body.
    set (kws := Str.findall_words (Str.lower topic)).
    set (ti := Str.lower (title resource)).
    set (tx := Str.lower (raw_text resource)).
    unfold py_div.
    destruct (Nat.eqb (length kws) 0) eqn:E; simpl; [lra|].
    apply Nat.eqb_neq in E. fold (nat_Q (length kws)).
    pose proof (nat_Q_pos _ E) as Hpos.
    destruct (title_score_loop_bounds kws ti 0) as [_ Ht].
    pose proof (content_score_loop_half kws tx 0) as Hc.
    assert (Ha : title_score_loop kws ti 0 / nat_Q (length kws) <= 1).
    { apply Qle_shift_div_r; [exact Hpos | lra]. }
    assert (Hb : content_score_loop kws tx 0 / nat_Q (length kws) <= 0.5).
    { apply Qle_shift_div_r; [exact Hpos | lra]. }
    assert (Hf1 : partial_ratio (Str.lower topic) ti / 100 <= 1).
    { apply Qle_shift_div_r; [lra|]. pose proof (partial_ratio_le (Str.lower topic) ti). lra. }
    assert (Hf2 : partial_ratio (Str.lower topic) tx / 100 <= 1).
    { apply Qle_shift_div_r; [lra|]. pose proof (partial_ratio_le (Str.lower topic) tx). lra. }
    eapply Qle_trans; [apply Q.le_min_l | lra]. }
  split; [exact Hrel|].
  unfold final_score.
  destruct (depth_unit resource level) as [_ Hd].
  destruct (credibility_unit resource) as [_ Hc].
  lra.
Qed.

(** X3.  For a level that is none of [beginner], [intermediate], [advanced] (after
    lower-casing) the depth score is the neutral 0.5, whatever the resource. *)
Theorem depth_of_unknown_level (resource : ResourceDict) (level : string) :
  Str.mem (Str.lower level) Main.valid_levels = false ->
  _calculate_content_depth_score resource level = 0.5.
Proof.
  intros H. unfold Str.mem, Main.valid_levels in H. simpl in H.
  apply orb_false_iff in H. destruct H as [Hb H].
  apply orb_false_iff in H. destruct H as [Hi H].
  apply orb_false_iff in H. destruct H as [Ha _].
  unfold _calculate_content_depth_score, level_keywords. simpl dict_get.
  rewrite Hb, Hi, Ha. reflexivity.
Qed.

End TighterRanges.

Lemma relevance_below_cap_witness :
  (forall a b, Examples.partial_ratio a b <= 100)
  /\ EvaluationAgent._calculate_relevance_score Examples.partial_ratio
       (Examples.python_basics "article" "https://medium.com/p") "python" <= 0.9.
Proof.
  split; [intros a b; apply partial_ratio_example_range|].
  apply (relevance_below_cap Examples.partial_ratio
           (fun a b => proj2 (partial_ratio_example_range a b))
           (Examples.python_basics "article" "https://medium.com/p") "python" "beginner").
Defined.

Lemma depth_of_unknown_level_witness :
  Str.mem (Str.lower "Expert") Main.valid_levels = false
  /\ EvaluationAgent._calculate_content_depth_score
       (Examples.python_basics "article" "https://medium.com/p") "Expert" = 0.5.
Proof.
  split; [reflexivity|].
  apply (depth_of_unknown_level _ "Expert" eq_refl).
Defined.

(** ** [_filter_by_category] on resources without a score *)

Section MissingScore.

Import EvaluationAgent.

Variable h : Heap.

Lemma decorate_raises ls e : decorate h ls = Raise e -> e = KeyError "score".
Proof.
  induction ls as [|l ls IH]; simpl; [discriminate|].
  unfold get_score. destruct (score (h l)); simpl.
  - destruct (decorate h ls); simpl; [discriminate|].
    intros H. inversion H; subst. apply IH. reflexivity.
  - intros H. inversion H. reflexivity.
Qed.

Lemma decorate_missing ls l :
  In l ls -> score (h l) = None -> decorate h ls = Raise (KeyError "score").
Proof.
  induction ls as [|l0 ls IH]; simpl; intros Hin Hl; [contradiction|].
  unfold get_score. destruct Hin as [-> | Hin].
  - rewrite Hl. reflexivity.
  - destruct (score (h l0)); simpl; [|reflexivity].
    rewrite (IH Hin Hl). reflexivity.
Qed.

Lemma sort_by_score_raises ls e : sort_by_score h ls = Raise e -> e = KeyError "score".
Proof.
  unfold sort_by_score. destruct (decorate h ls) eqn:E; simpl; [discriminate|].
  intros H. inversion H; subst. eapply decorate_raises; eassumption.
Qed.

Lemma take_loop_missing (by_type : ByType) t ls l :
  In (t, ls) by_type -> In l ls -> score (h l) = None ->
  forall filtered_resources,
    take_loop h by_type filtered_resources = Raise (KeyError "score").
Proof.
  induction by_type as [|[t0 ls0] rest IH]; intros Hin Hl Hnone acc; [contradiction|].
  simpl. destruct Hin as [Heq | Hin].
  - inversion Heq; subst. unfold sort_by_score.
    rewrite (decorate_missing ls l Hl Hnone). reflexivity.
  - destruct (sort_by_score h ls0) as [sorted | e] eqn:E; simpl.
    + apply IH; assumption.
    + rewrite (sort_by_score_raises _ _ E). reflexivity.
Qed.

(** X4.  When a resource of the list has no ['score'], [_filter_by_category]
    takes its [except] path and returns the list as it got it: not capped
    and not sorted. *)
Theorem filter_by_category_missing_score (resources : list Loc) (l : Loc) :
  In l resources -> score (h l) = None ->
  _filter_by_category h resources = resources.
Proof.
  intros Hin Hnone. unfold _filter_by_category, filter_body.
  rewrite (take_loop_missing _ _ _ l (group_loop_covers h resources l Hin)).
  - reflexivity.
  - apply filter_In. split; [exact Hin | apply String.eqb_refl].
  - exact Hnone.
Qed.

End MissingScore.

Lemma filter_by_category_missing_score_witness :
  let h := Examples.store [Examples.python_basics "video" "https://vimeo.com/1"] in
  In 0%nat [0; 0; 0; 0; 0; 0]%nat /\ score (h 0%nat) = None
  /\ EvaluationAgent._filter_by_category h [0; 0; 0; 0; 0; 0]%nat = [0; 0; 0; 0; 0; 0]%nat.
Proof.
  split; [left; reflexivity|]. split; [reflexivity|].
  apply (filter_by_category_missing_score
           (Examples.store [Examples.python_basics "video" "https://vimeo.com/1"])
           [0; 0; 0; 0; 0; 0]%nat 0%nat); [left; reflexivity | reflexivity].
Defined.

(** ** What [evaluate] returns, as a multiset *)

Section Multiset.

Import EvaluationAgent.

Lemma flat_map_perm {A B : Type} (f g : A -> list B) (l : list A) :
  (forall x, In x l -> Permutation (f x) (g x)) ->
  Permutation (flat_map f l) (flat_map g l).
Proof.
  induction l as [|x l IH]; simpl; intros H; [constructor|].
  apply Permutation_app; [apply H; auto | apply IH; auto].
Qed.

Lemma flat_map_app_perm {A B : Type} (f g : A -> list B) (l : list A) :
  Permutation (flat_map f l ++ flat_map g l) (flat_map (fun x => f x ++ g x) l).
Proof.
  induction l as [|x l IH]; simpl; [constructor|].
  rewrite <- !app_assoc.
  apply Permutation_app_head.
  eapply perm_trans; [apply Permutation_app_swap_app|].
  apply Permutation_app_head, IH.
Qed.

Lemma by_type_append_perm (by_type : ByType) t l :
  Permutation (flat_map snd (by_type_append by_type t l)) (flat_map snd by_type ++ [l]).
Proof.
  induction by_type as [|[t0 ls] rest IH]; simpl.
  - constructor. constructor.
  - destruct (String.eqb t t0); simpl.
    + rewrite <- !app_assoc. apply Permutation_app_head, Permutation_app_comm.
    + rewrite <- app_assoc. apply Permutation_app_head, IH.
Qed.

Lemma group_loop_perm (h : Heap) resources : forall by_type : ByType,
  Permutation (flat_map snd (group_loop h resources by_type))
    (flat_map snd by_type ++ resources).
Proof.
  induction resources as [|l rest IH]; intros by_type; simpl.
  - rewrite app_nil_r. apply Permutation_refl.
  - eapply perm_trans; [apply IH|].
    eapply perm_trans; [apply Permutation_app_tail, by_type_append_perm|].
    rewrite <- app_assoc. apply Permutation_refl.
Qed.

Lemma filtered_perm (k : Loc -> Q) (h : Heap) resources :
  Permutation
    (filtered k h resources ++ capped_away k (group_loop h resources []))
    resources.
Proof.
  unfold filtered, capped_away.
  eapply perm_trans; [apply Permutation_app_tail, sorted_by_perm|].
  unfold cap_groups.
  eapply perm_trans; [apply flat_map_app_perm|].
  eapply perm_trans; [|apply (group_loop_perm h resources [])].
  apply flat_map_perm. intros g _. rewrite firstn_skipn. apply sorted_by_perm.
Qed.

Variable partial_ratio : string -> string -> Q.

(** X5.  [evaluate] returns a part of the resources that pass the threshold, each
    at most as often as it is in the input: it never repeats a resource, and
    an input without repetition gives a result without repetition. *)
Theorem evaluate_returns_part_of_input (h : Heap) (resources : list Loc)
  (topic level : string) :
  let out := fst (evaluate partial_ratio h resources topic level) in
  (exists dropped,
     Permutation (out ++ dropped)
       (filter (fun l => Qle_bool min_score_threshold
                           (final_score partial_ratio (h l) topic level)) resources))
  /\ (length out <= length resources)%nat
  /\ (NoDup resources -> NoDup out).
Proof.
  rewrite evaluate_spec. cbn [fst].
  set (k := score_of partial_ratio topic level h).
  set (h' := heap_after partial_ratio topic level h resources).
  set (kept := filter (passes partial_ratio topic level h) resources).
  assert (Hperm : Permutation
            (filtered k h' (sorted_by k kept)
             ++ capped_away k (group_loop h' (sorted_by k kept) []))
            kept).
  { eapply perm_trans; [apply filtered_perm | apply sorted_by_perm]. }
  split; [|split].
  - eexists. exact Hperm.
  - apply Permutation_length in Hperm. rewrite length_app in Hperm.
    pose proof (filter_length_le (passes partial_ratio topic level h) resources).
    fold kept in H. lia.
  - intros Hnd.
    assert (Hk : NoDup kept) by (apply NoDup_filter, Hnd).
    apply (Permutation_NoDup (Permutation_sym Hperm)) in Hk.
    apply NoDup_app_remove_r in Hk. exact Hk.
Qed.


End Multiset.


(** ** Scores that are already there *)

Section OldScores.

Import EvaluationAgent.

Variable partial_ratio : string -> string -> Q.
Variables topic level : string.

Lemma final_score_fields r r' :
  title r = title r' -> raw_text r = raw_text r' ->
  source r = source r' -> link r = link r' ->
  final_score partial_ratio r topic level = final_score partial_ratio r' topic level.
Proof.
  intros Ht Hx Hs Hl.
  unfold final_score, _calculate_relevance_score, relevance_body,
    _calculate_content_depth_score, _calculate_credibility_score.
  rewrite Ht, Hx, Hs, Hl. reflexivity.
Qed.

Lemma sorted_by_ext (k k' : Loc -> Q) ls :
  (forall l, k l = k' l) -> sorted_by k ls = sorted_by k' ls.
Proof.
  intros H. unfold sorted_by, keyed. f_equal. f_equal.
  apply map_ext. intros l. rewrite H. reflexivity.
Qed.

Lemma group_loop_ext (h h' : Heap) resources :
  (forall l, type (h' l) = type (h l)) ->
  forall by_type, group_loop h' resources by_type = group_loop h resources by_type.
Proof.
  intros Hty. induction resources as [|l rest IH]; intros by_type; simpl.
  - reflexivity.
  - rewrite Hty. apply IH.
Qed.

Lemma filtered_ext (k k' : Loc -> Q) (h h' : Heap) resources :
  (forall l, k l = k' l) -> (forall l, type (h' l) = type (h l)) ->
  filtered k' h' resources = filtered k h resources.
Proof.
  intros Hk Hty. unfold filtered, cap_groups.
  rewrite (group_loop_ext h h' resources Hty).
  rewrite <- (sorted_by_ext k k' _ Hk). f_equal.
  apply flat_map_ext. intros g. rewrite (sorted_by_ext k k' _ Hk). reflexivity.
Qed.

(** X7.  [evaluate] reads the type, title, link, text and source of a resource
    and never a score that is already on it: two stores that agree on these
    five fields give the same list and the same stored resources.  So
    evaluating again what [evaluate] returned changes nothing. *)
Theorem evaluate_ignores_old_scores (h h0 : Heap) (resources : list Loc) :
  (forall l, type (h0 l) = type (h l) /\ title (h0 l) = title (h l)
             /\ link (h0 l) = link (h l) /\ raw_text (h0 l) = raw_text (h l)
             /\ source (h0 l) = source (h l)) ->
  fst (evaluate partial_ratio h0 resources topic level)
  = fst (evaluate partial_ratio h resources topic level)
  /\ (forall l, In l resources ->
        snd (evaluate partial_ratio h0 resources topic level) l
        = snd (evaluate partial_ratio h resources topic level) l).
Proof.
  intros Hsame. rewrite !evaluate_spec. cbn [fst snd].
  assert (Hf : forall l, final_of partial_ratio topic level h0 l
                         = final_of partial_ratio topic level h l).
  { intros l. destruct (Hsame l) as [_ [Ht [Hl [Hx Hs]]]].
    apply final_score_fields; assumption. }
  assert (Hk : forall l, score_of partial_ratio topic level h l
                         = score_of partial_ratio topic level h0 l).
  { intros l. unfold score_of. rewrite Hf. reflexivity. }
  assert (Hp : filter (passes partial_ratio topic level h0) resources
               = filter (passes partial_ratio topic level h) resources).
  { apply filter_ext. intros l. unfold passes. rewrite Hf. reflexivity. }
  split.
  - rewrite Hp. rewrite <- (sorted_by_ext _ _ _ Hk).
    apply filtered_ext; [exact Hk|].
    intros l. rewrite !heap_after_type. apply Hsame.
  - intros l Hin. unfold heap_after. rewrite !evaluate_loop_heap.
    apply in_list_In in Hin. rewrite Hin. rewrite <- Hk.
    destruct (Hsame l) as [Hty [Ht [Hl [Hx Hs]]]].
    unfold set_score. rewrite Hty, Ht, Hl, Hx, Hs. reflexivity.
Qed.

End OldScores.

Lemma evaluate_ignores_old_scores_witness :
  let h := Examples.store [Examples.python_basics "video" "https://vimeo.com/1"] in
  let run h := EvaluationAgent.evaluate Examples.partial_ratio h [0%nat] "python" "beginner" in
  fst (run (snd (run h))) = fst (run h).
Proof.
  cbv zeta.
  apply (evaluate_ignores_old_scores Examples.partial_ratio "python" "beginner"
           (Examples.store [Examples.python_basics "video" "https://vimeo.com/1"])
           (snd (EvaluationAgent.evaluate Examples.partial_ratio
                   (Examples.store [Examples.python_basics "video" "https://vimeo.com/1"])
                   [0%nat] "python" "beginner"))
           [0%nat]).
  intros l. rewrite evaluate_spec. cbn [snd]. unfold heap_after.
  rewrite evaluate_loop_heap. destruct (in_list l [0%nat]); repeat split.
Defined.

(** ** The answers of the endpoint *)

Section EndpointAnswers.

Import Main.

Variable partial_ratio : string -> string -> Q.
Variable agents : Agents.

Lemma map_filter_length {A B : Type} (f : A -> B) (p : B -> bool) (l : list A) :
  length (filter p (map f l)) = length (filter (fun x => p (f x)) l).
Proof.
  induction l as [|x l IH]; simpl; [reflexivity|].
  destruct (p (f x)); simpl; rewrite IH; reflexivity.
Qed.

Lemma StronglySorted_map {A B : Type} (f : A -> B) (R : B -> B -> Prop) (l : list A) :
  StronglySorted (fun a b => R (f a) (f b)) l -> StronglySorted R (map f l).
Proof.
  induction 1 as [|x l _ IH Hall]; simpl; constructor; [exact IH|].
  apply Forall_forall. intros b Hb. apply in_map_iff in Hb.
  destruct Hb as [y [<- Hy]]. rewrite Forall_forall in Hall. apply Hall, Hy.
Qed.

(** What a request with a valid level is answered, in terms of the result of
    [evaluate] on the store of the collected resources. *)
Lemma scrape_resources_valid (request : ScrapeRequest) :
  Str.mem (Str.lower (level request)) valid_levels = true ->
  let h := snd (alloc (flat_map contribution (tasks agents request))) in
  let locs := fst (alloc (flat_map contribution (tasks agents request))) in
  let k := score_of partial_ratio (topic request) (level request) h in
  let h' := heap_after partial_ratio (topic request) (level request) h locs in
  let out :=
    filtered k h'
      (sorted_by k (filter (passes partial_ratio (topic request) (level request) h) locs)) in
  fst (scrape_resources partial_ratio agents request)
  = Return (mkResponse
              ("Learning resources for " ++ topic request ++ " at "
                 ++ level request ++ " level")%string
              (map (fun l => mkItem (type (h' l)) (title (h' l)) (link (h' l)) (k l)) out)).
Proof.
  intros Hlevel. cbv zeta. unfold scrape_resources.
  rewrite (scrape_body_valid partial_ratio agents request Hlevel). cbv zeta.
  rewrite evaluate_spec. cbn [fst snd].
  rewrite (format_resources_ok
             (score_of partial_ratio (topic request) (level request)
                (snd (alloc (flat_map contribution (tasks agents request)))))).
  - reflexivity.
  - intros l Hl. apply heap_after_score.
    apply filtered_In in Hl. apply (proj1 (sorted_by_In _ _ _)) in Hl.
    apply filter_In in Hl. tauto.
Qed.

(** X8.  The endpoint has one error answer: whatever is raised in the body of the
    handler, the [HTTPException] with status 400 of the level check too, is
    caught by the handler's own [except Exception] and reaches the client as
    status 500; and nothing but an invalid level makes it fail. *)
Theorem scrape_resources_error_status (request : ScrapeRequest) :
  let r := fst (scrape_resources partial_ratio agents request) in
  (Str.mem (Str.lower (level request)) valid_levels = false ->
   r = Raise (HTTPException 500 "Internal server error"))
  /\ (forall e, r = Raise e ->
        e = HTTPException 500 "Internal server error"
        /\ Str.mem (Str.lower (level request)) valid_levels = false).
Proof.
  cbv zeta. split.
  - intros Hlevel. unfold scrape_resources, scrape_body. rewrite Hlevel. reflexivity.
  - intros e He.
    destruct (Str.mem (Str.lower (level request)) valid_levels) eqn:Hlevel.
    + exfalso.
      rewrite (scrape_resources_valid request Hlevel) in He. discriminate.
    + unfold scrape_resources, scrape_body in He. rewrite Hlevel in He.
      cbn in He. inversion He. split; reflexivity.
Qed.

(** X9.  Every answer of the endpoint lists resources that the agents returned,
    each with a score of at least 0.4, at most five of a type, in descending
    order of the score, and no more of them than were collected. *)
Theorem response_resources (request : ScrapeRequest) (response : ScrapeResponse) :
  fst (scrape_resources partial_ratio agents request) = Return response ->
  (forall item, In item (resources response) ->
     0.4 <= item_score item
     /\ exists r, In r (all_resources agents request)
                  /\ type r = item_type item /\ title r = item_title item
                  /\ link r = item_link item)
  /\ (forall t,
        (length (filter (fun item => String.eqb t (item_type item))
                   (resources response)) <= 5)%nat)
  /\ StronglySorted (fun a b => item_score b <= item_score a) (resources response)
  /\ (length (resources response) <= length (all_resources agents request))%nat.
Proof.
  intros Hresp.
  destruct (Str.mem (Str.lower (level request)) valid_levels) eqn:Hlevel.
  2:{ exfalso. unfold scrape_resources, scrape_body in Hresp.
      rewrite Hlevel in Hresp. discriminate. }
  rewrite (scrape_resources_valid request Hlevel) in Hresp. cbv zeta in Hresp.
  unfold all_resources. rewrite collect_loop_fst.
  set (all := flat_map contribution (tasks agents request)) in *.
  set (h := snd (alloc all)) in *.
  set (locs := fst (alloc all)) in *.
  set (k := score_of partial_ratio (topic request) (level request) h) in *.
  set (h' := heap_after partial_ratio (topic request) (level request) h locs) in *.
  set (kept := filter (passes partial_ratio (topic request) (level request) h) locs) in *.
  set (out := filtered k h' (sorted_by k kept)) in *.
  inversion Hresp as [Hr]. clear Hresp. cbn [resources].
  assert (Hout : forall l, In l out -> In l kept).
  { intros l Hl. apply filtered_In in Hl. apply (proj1 (sorted_by_In _ _ _)) in Hl.
    exact Hl. }
  assert (Hfields : forall l, type (h' l) = type (h l) /\ title (h' l) = title (h l)
                              /\ link (h' l) = link (h l)).
  { intros l. unfold h', heap_after. rewrite evaluate_loop_heap.
    destruct (in_list l locs); repeat split. }
  split; [|split; [|split]].
  - intros item Hitem. apply in_map_iff in Hitem. destruct Hitem as [l [<- Hl]].
    cbn [item_score item_type item_title item_link].
    apply Hout, filter_In in Hl. destruct Hl as [Hloc Hpass].
    split.
    + apply round2_ge_threshold. apply Qle_bool_iff in Hpass. exact Hpass.
    + exists (h l). destruct (Hfields l) as [Hty [Hti Hli]].
      split; [|auto].
      unfold locs, alloc in Hloc. cbn [fst] in Hloc. apply in_seq in Hloc.
      unfold h, alloc. cbn [snd]. apply nth_In. lia.
  - intros t. rewrite map_filter_length. cbn [item_type].
    apply (filtered_cap h' k (sorted_by k kept) t).
  - apply StronglySorted_map. cbn [item_score].
    apply (sorted_by_sorted k).
  - rewrite length_map.
    pose proof (filtered_perm k h' (sorted_by k kept)) as Hperm.
    apply Permutation_length in Hperm. rewrite length_app in Hperm.
    rewrite (Permutation_length (sorted_by_perm k kept)) in Hperm.
    pose proof (filter_length_le
                  (passes partial_ratio (topic request) (level request) h) locs) as Hle.
    fold kept in Hle. fold out in Hperm.
    assert (Hlocs : length locs = length all).
    { unfold locs, alloc. cbn [fst]. apply length_seq. }
    lia.
Qed.

End EndpointAnswers.

Lemma response_resources_witness :
  exists response,
    fst (Main.scrape_resources Examples.partial_ratio Examples.same_page_agents
           (Main.mkRequest "python" "beginner"))
    = Return response
    /\ (length (Main.resources response)
        <= length (Main.all_resources Examples.same_page_agents
                     (Main.mkRequest "python" "beginner")))%nat.
Proof.
  eexists. split; [vm_compute; reflexivity|].
  eapply (response_resources Examples.partial_ratio Examples.same_page_agents
            (Main.mkRequest "python" "beginner")).
  vm_compute. reflexivity.
Defined.

(** ** De-duplication, again *)

Section UniqueMore.

Import ArticlesAgent.

Lemma unique_loop_id resources : forall seen_urls,
  NoDup (map link resources) ->
  (forall r, In r resources -> ~ In (link r) seen_urls) ->
  unique_loop resources seen_urls = resources.
Proof.
  induction resources as [|r0 rest IH]; simpl; intros seen Hnd Hseen; [reflexivity|].
  inversion Hnd as [|? ? Hnotin Hnd']; subst.
  destruct (Str.mem (link r0) seen) eqn:E.
  - apply mem_In in E. exfalso. apply (Hseen r0); auto.
  - f_equal. apply IH; [exact Hnd'|].
    intros r Hr [Heq | Hin].
    + apply Hnotin. rewrite Heq. apply in_map, Hr.
    + apply (Hseen r); auto.
Qed.

Lemma unique_loop_length resources : forall seen_urls,
  (length (unique_loop resources seen_urls) <= length resources)%nat.
Proof.
  induction resources as [|r0 rest IH]; simpl; intros seen; [lia|].
  destruct (Str.mem (link r0) seen); simpl.
  - specialize (IH seen). lia.
  - specialize (IH (link r0 :: seen)). lia.
Qed.

(** X11.  Removing the duplicates leaves a list without duplicate links alone, so
    doing it twice is doing it once; it never makes the list longer, and it
    keeps every link that was found. *)
Theorem scrape_dedup_idempotent (found : list ResourceDict) :
  let unique_resources := scrape (Return found) in
  scrape (Return unique_resources) = unique_resources
  /\ (NoDup (map link found) -> unique_resources = found)
  /\ (length unique_resources <= length found)%nat
  /\ (forall u, In u (map link found) <-> In u (map link unique_resources)).
Proof.
  cbv zeta. unfold scrape. cbn [bind try_except].
  split; [|split; [|split]].
  - apply unique_loop_id; [apply unique_loop_NoDup | intros r _ []].
  - intros Hnd. apply unique_loop_id; [exact Hnd | intros r _ []].
  - apply unique_loop_length.
  - intros u.
    assert (Hfind : forall rs : list ResourceDict,
              In u (map link rs) <-> first_with_link u rs <> None).
    { intros rs. unfold first_with_link. split.
      - intros Hin. apply in_map_iff in Hin. destruct Hin as [r [Hl Hr]].
        destruct (find _ rs) eqn:E; [discriminate|].
        apply (find_none _ _ E) in Hr. apply String.eqb_neq in Hr. congruence.
      - destruct (find _ rs) eqn:E; [|congruence]. intros _.
        apply find_some in E. destruct E as [Hr Hl].
        apply String.eqb_eq in Hl. rewrite <- Hl. apply in_map, Hr. }
    rewrite !Hfind, unique_loop_first. reflexivity.
Qed.

End UniqueMore.

(** ** Strings, again *)

Section StringFacts.

Lemma prefix_nil s : String.prefix "" s = true.
Proof. destruct s; reflexivity. Qed.

Lemma prefix_char_inv c s :
  String.prefix (String c "") s = true -> exists s', s = String c s'.
Proof.
  destruct s as [|c' s']; [discriminate|].
  change (String.prefix (String c "") (String c' s'))
    with (if ascii_dec c c' then String.prefix "" s' else false).
  destruct (ascii_dec c c') as [<-|]; [eauto | discriminate].
Qed.

Lemma prefix_app_l p a b : String.prefix p a = true -> String.prefix p (a ++ b) = true.
Proof.
  revert a. induction p as [|c p IH]; intros a H; [apply prefix_nil|].
  destruct a as [|c' a]; simpl in *; [discriminate|].
  destruct (ascii_dec c c'); [apply IH, H | discriminate].
Qed.

Lemma prefix_split a b t : String.prefix (a ++ b) t = true -> String.prefix a t = true.
Proof.
  revert t. induction a as [|c a IH]; intros t H; [apply prefix_nil|].
  destruct t as [|c' t]; simpl in *; [discriminate|].
  destruct (ascii_dec c c'); [apply IH, H | discriminate].
Qed.

Lemma contains_nil n : Str.contains n "" = String.prefix n "".
Proof. unfold Str.contains. apply orb_false_r. Qed.

Lemma contains_String n c t :
  Str.contains n (String c t) = String.prefix n (String c t) || Str.contains n t.
Proof. reflexivity. Qed.

Lemma contains_prefix n t : String.prefix n t = true -> Str.contains n t = true.
Proof.
  intros H. destruct t; [rewrite contains_nil | rewrite contains_String];
    rewrite H; reflexivity.
Qed.

Lemma contains_cons n c t : Str.contains n t = true -> Str.contains n (String c t) = true.
Proof.
  intros H. rewrite contains_String, H. apply orb_true_r.
Qed.

(** A string that contains [a ++ b] contains [a] and contains [b]. *)
Lemma contains_left a b t : Str.contains (a ++ b) t = true -> Str.contains a t = true.
Proof.
  induction t as [|c t IH]; intros H.
  - rewrite contains_nil in *. apply (prefix_split a b), H.
  - rewrite contains_String in *.
    apply orb_true_iff in H. destruct H as [H | H].
    + rewrite (prefix_split a b _ H). reflexivity.
    + rewrite (IH H). apply orb_true_r.
Qed.

Lemma prefix_contains_right a b : forall t,
  String.prefix (a ++ b) t = true -> Str.contains b t = true.
Proof.
  induction a as [|c a IH]; intros t H.
  - apply contains_prefix, H.
  - destruct t as [|c' t]; simpl in H; [discriminate|].
    destruct (ascii_dec c c'); [|discriminate].
    apply contains_cons, IH, H.
Qed.

Lemma contains_right a b t : Str.contains (a ++ b) t = true -> Str.contains b t = true.
Proof.
  induction t as [|c t IH]; intros H.
  - rewrite contains_nil in H. apply (prefix_contains_right a b), H.
  - rewrite contains_String in H.
    apply orb_true_iff in H. destruct H as [H | H].
    + apply (prefix_contains_right a b), H.
    + apply contains_cons, IH, H.
Qed.

Lemma has_char_app c a b :
  PyStr.has_char c (a ++ b) = PyStr.has_char c a || PyStr.has_char c b.
Proof.
  induction a as [|x a IH]; simpl; [reflexivity|].
  rewrite IH. apply orb_assoc.
Qed.

Lemma has_char_replace c new s :
  PyStr.has_char c new = false -> PyStr.has_char c (PyStr.replace_char c new s) = false.
Proof.
  intros Hnew. induction s as [|x s IH]; simpl; [reflexivity|].
  destruct (Ascii.eqb x c) eqn:E.
  - rewrite has_char_app, Hnew, IH. reflexivity.
  - simpl. rewrite E, IH. reflexivity.
Qed.

Lemma take_length n s : (String.length (PyStr.take n s) <= n)%nat.
Proof.
  revert s. induction n as [|n IH]; intros [|c s]; simpl; try lia.
  specialize (IH s). lia.
Qed.

Lemma take_all n s : (String.length s <= n)%nat -> PyStr.take n s = s.
Proof.
  revert s. induction n as [|n IH]; intros [|c s]; simpl; intros H;
    try reflexivity; try lia.
  rewrite IH by lia. reflexivity.
Qed.

Lemma take_app n s t :
  String.length s = n -> PyStr.take n (s ++ t) = s.
Proof.
  revert s. induction n as [|n IH]; intros [|c s]; simpl; intros H;
    try reflexivity; try discriminate.
  rewrite IH by lia. reflexivity.
Qed.

Lemma take_take_length n s :
  (n <= String.length s)%nat -> String.length (PyStr.take n s) = n.
Proof.
  revert s. induction n as [|n IH]; intros [|c s]; simpl; intros H;
    try reflexivity; try lia.
  rewrite IH by lia. reflexivity.
Qed.

Lemma string_length_app a b :
  String.length (a ++ b) = (String.length a + String.length b)%nat.
Proof.
  induction a as [|c a IH]; simpl; [reflexivity | rewrite IH; reflexivity].
Qed.

Lemma rstrip_prefix c p : forall s,
  PyStr.has_char c p = false ->
  String.prefix p s = true -> String.prefix p (PyStr.rstrip_char c s) = true.
Proof.
  induction p as [|a p IH]; intros s Hp H; [apply prefix_nil|].
  destruct s as [|a' s]; simpl in H; [discriminate|].
  destruct (ascii_dec a a') as [<- | ]; [|discriminate].
  simpl in Hp. apply orb_false_iff in Hp. destruct Hp as [Ha Hp].
  specialize (IH s Hp H).
  simpl. destruct (PyStr.rstrip_char c s) as [|b r] eqn:E.
  - rewrite Ha. destruct p; [|discriminate]. simpl.
    destruct (ascii_dec a a); [reflexivity | congruence].
  - simpl. destruct (ascii_dec a a); [exact IH | congruence].
Qed.

Lemma is_space_lower c : PyStr.is_space (Str.lower_char c) = PyStr.is_space c.
Proof.
  destruct c as [[] [] [] [] [] [] [] []]; reflexivity.
Qed.

Lemma split_all_space s : all_space s = true -> PyStr.split (Str.lower s) = [].
Proof.
  unfold PyStr.split.
  induction s as [|c s IH]; intros H; [reflexivity|].
  cbn [all_space] in H. apply andb_true_iff in H. destruct H as [Hc Hs].
  cbn [Str.lower PyStr.split_from]. rewrite is_space_lower, Hc. apply IH, Hs.
Qed.

Lemma nodupb_sound xs : nodupb xs = true -> NoDup xs.
Proof.
  induction xs as [|x xs IH]; intros H; [constructor|].
  change (nodupb (x :: xs)) with (negb (Str.mem x xs) && nodupb xs) in H.
  apply andb_true_iff in H. destruct H as [Hx Hxs].
  constructor; [|apply IH, Hxs].
  intros Hin. apply mem_In in Hin. rewrite Hin in Hx. discriminate.
Qed.

End StringFacts.

(** ** The searches of [ArticlesAgent] *)

Section ArticlesSearchFacts.

Import ArticlesSearch.

Lemma Forall_firstn {A : Type} (P : A -> Prop) (n : nat) (l : list A) :
  Forall P l -> Forall P (firstn n l).
Proof.
  intros H. apply Forall_forall. intros x Hx.
  rewrite Forall_forall in H. apply H. eapply firstn_In, Hx.
Qed.

Lemma wikipedia_loop_ok items : forall articles,
  wikipedia_loop items = Return articles ->
  length articles = length items /\ Forall wikipedia_article articles.
Proof.
  induction items as [|item rest IH]; simpl; intros articles H.
  - inversion H. split; [reflexivity | constructor].
  - destruct (wiki_title item) as [t|]; [|discriminate].
    destruct (wikipedia_loop rest) as [rs|e]; simpl in H; [|discriminate].
    inversion H; subst. destruct (IH rs eq_refl) as [Hlen Hall].
    split; [simpl; rewrite Hlen; reflexivity|].
    constructor; [|exact Hall]. repeat split.
Qed.

Lemma wikipedia_loop_total items :
  (forall item, In item items -> wiki_title item <> None) ->
  exists articles, wikipedia_loop items = Return articles.
Proof.
  induction items as [|item rest IH]; simpl; intros H; [eauto|].
  destruct (wiki_title item) as [t|] eqn:E.
  - destruct IH as [rs Hrs]; [auto|]. rewrite Hrs. simpl. eauto.
  - exfalso. apply (H item); auto.
Qed.

Lemma wikipedia_loop_missing items item :
  In item items -> wiki_title item = None ->
  wikipedia_loop items = Raise (KeyError "title").
Proof.
  induction items as [|item0 rest IH]; simpl; intros Hin Hnone; [contradiction|].
  destruct Hin as [-> | Hin].
  - rewrite Hnone. reflexivity.
  - destruct (wiki_title item0); [|reflexivity].
    rewrite (IH Hin Hnone). reflexivity.
Qed.

Lemma search_wikipedia_Forall response :
  Forall wikipedia_article (_search_wikipedia response).
Proof.
  destruct response as [e | status items]; simpl; [constructor|].
  destruct (Nat.eqb status 200); [|constructor].
  destruct (wikipedia_loop items) as [rs|e] eqn:E; simpl; [|constructor].
  apply (wikipedia_loop_ok items rs E).
Qed.

(** X12.  Every article that [_search_wikipedia] returns has a link without a
    space, made of its title, and is rated 1.0 by
    [_calculate_credibility_score].  The search is all or nothing: when an
    item of the answer has no title the [KeyError] is caught outside the loop
    and the articles read so far are lost; otherwise every item gives an
    article, however many there are. *)
Theorem search_wikipedia_results (response : Fetched (list WikiItem)) :
  (forall r, In r (_search_wikipedia response) ->
     type r = "article" /\ source r = "wikipedia"
     /\ link r = ("https://en.wikipedia.org/wiki/"
                    ++ PyStr.replace_char " " "_" (title r))%string
     /\ PyStr.has_char " " (link r) = false
     /\ EvaluationAgent._calculate_credibility_score r = 1.0)
  /\ (forall items item, response = FetchStatus 200 items ->
        In item items -> wiki_title item = None ->
        _search_wikipedia response = [])
  /\ (forall items, response = FetchStatus 200 items ->
        (forall item, In item items -> wiki_title item <> None) ->
        length (_search_wikipedia response) = length items).
Proof.
  split; [|split].
  - intros r Hr.
    pose proof (search_wikipedia_Forall response) as Hall.
    rewrite Forall_forall in Hall. destruct (Hall r Hr) as [Hty [Hsrc Hlink]].
    repeat split; try assumption.
    + rewrite Hlink, has_char_app, has_char_replace by reflexivity. reflexivity.
    + unfold EvaluationAgent._calculate_credibility_score.
      rewrite Hsrc, Hlink. vm_compute. reflexivity.
  - intros items item -> Hin Hnone. simpl.
    rewrite (wikipedia_loop_missing items item Hin Hnone). reflexivity.
  - intros items -> Hall. simpl.
    destruct (wikipedia_loop_total items Hall) as [rs Hrs]. rewrite Hrs. simpl.
    apply (wikipedia_loop_ok items rs Hrs).
Qed.

Lemma medium_loop_Forall anchors : Forall medium_article (medium_loop anchors).
Proof.
  induction anchors as [|a rest IH]; simpl; [constructor|].
  destruct (_ && _ && _); [|exact IH].
  destruct (negb _ && (10 <? _)%nat) eqn:E; [|exact IH].
  constructor; [|exact IH].
  apply andb_true_iff in E. destruct E as [_ E]. apply Nat.ltb_lt in E.
  repeat split; try exact E. cbn [link].
  destruct (String.prefix "http" (href a)) eqn:Ep; [exact Ep | reflexivity].
Qed.

(** X13.  [_search_medium] returns at most five articles, each with a title of
    more than ten characters, the title as its text and an absolute link; it
    returns nothing when the request fails or the status is not 200. *)
Theorem search_medium_results (response : Fetched (list Anchor)) :
  (length (_search_medium response) <= 5)%nat
  /\ (forall r, In r (_search_medium response) ->
        type r = "article" /\ source r = "medium" /\ raw_text r = title r
        /\ (10 < String.length (title r))%nat
        /\ String.prefix "http" (link r) = true)
  /\ (forall e, response = FetchError e -> _search_medium response = [])
  /\ (forall status anchors, response = FetchStatus status anchors ->
        status <> 200%nat -> _search_medium response = []).
Proof.
  split; [|split; [|split]].
  - destruct response as [e | status anchors]; unfold _search_medium; [simpl; lia|].
    destruct (Nat.eqb status 200); [apply firstn_le_length | simpl; lia].
  - intros r Hr.
    assert (Hall : Forall medium_article (_search_medium response)).
    { destruct response as [e | status anchors]; unfold _search_medium; [constructor|].
      destruct (Nat.eqb status 200); [|constructor].
      apply Forall_firstn, medium_loop_Forall. }
    rewrite Forall_forall in Hall. apply (Hall r Hr).
  - intros e ->. reflexivity.
  - intros status anchors -> Hs. unfold _search_medium.
    apply Nat.eqb_neq in Hs. rewrite Hs. reflexivity.
Qed.

Lemma devto_loop_Forall anchors : Forall devto_article (devto_loop anchors).
Proof.
  induction anchors as [|a rest IH]; simpl; [constructor|].
  destruct (negb (String.eqb (href a) "") && String.prefix "/" (href a)
            && negb (String.prefix "//" (href a))) eqn:Eh; [|exact IH].
  destruct (negb _ && (10 <? _)%nat) eqn:E; [|exact IH].
  constructor; [|exact IH].
  apply andb_true_iff in E. destruct E as [_ E]. apply Nat.ltb_lt in E.
  apply andb_true_iff in Eh. destruct Eh as [Eh _].
  apply andb_true_iff in Eh. destruct Eh as [_ Eh].
  repeat split; try exact E. cbn [link].
  destruct (prefix_char_inv _ _ Eh) as [rest' ->].
  simpl. destruct rest'; reflexivity.
Qed.

Lemma search_devto_Forall response : Forall devto_article (_search_devto response).
Proof.
  destruct response as [e | status anchors]; unfold _search_devto; [constructor|].
  destruct (Nat.eqb status 200); [|constructor].
  apply Forall_firstn, devto_loop_Forall.
Qed.

(** X14.  [_search_devto] returns at most five articles, each under
    [https://dev.to/].  It stamps them with the source [devto], which is not
    a key of the credibility table (the table has [dev.to]): unless the link
    has one of the five link patterns, such an article gets the credibility
    0.5 of an unknown source. *)
Theorem search_devto_results (response : Fetched (list Anchor)) :
  (length (_search_devto response) <= 5)%nat
  /\ (forall r, In r (_search_devto response) ->
        type r = "article" /\ source r = "devto"
        /\ (10 < String.length (title r))%nat
        /\ String.prefix "https://dev.to/" (link r) = true
        /\ dict_get EvaluationAgent.source_credibility (Str.lower (source r)) 0.5 = 0.5
        /\ (forallb (fun p => negb (Str.contains p (Str.lower (link r)))) link_patterns
            = true ->
            EvaluationAgent._calculate_credibility_score r = 0.5)).
Proof.
  split.
  - destruct response as [e | status anchors]; unfold _search_devto; [simpl; lia|].
    destruct (Nat.eqb status 200); [apply firstn_le_length | simpl; lia].
  - intros r Hr.
    pose proof (search_devto_Forall response) as Hall.
    rewrite Forall_forall in Hall.
    destruct (Hall r Hr) as [Hty [Hsrc [_ [Hlen Hlink]]]].
    repeat split; try assumption.
    + rewrite Hsrc. reflexivity.
    + intros Hpat. unfold link_patterns in Hpat. cbn [forallb] in Hpat.
      repeat (apply andb_true_iff in Hpat; destruct Hpat as [?H Hpat]).
      repeat match goal with
             | H : negb _ = true |- _ => apply negb_true_iff in H
             end.
      unfold EvaluationAgent._calculate_credibility_score.
      rewrite Hsrc. repeat match goal with H : Str.contains _ _ = false |- _ =>
                             rewrite H; clear H end.
      reflexivity.
Qed.


(** X16.  Whatever the web answers, [scrape] returns articles only, from the three
    sources, with absolute links that are pairwise distinct. *)
Theorem articles_scrape_web (web : Web) (topic level : string) :
  NoDup (map link (scrape_web web topic level))
  /\ (forall r, In r (scrape_web web topic level) ->
        type r = "article"
        /\ Str.mem (source r) ["wikipedia"; "medium"; "devto"] = true
        /\ String.prefix "http" (link r) = true).
Proof.
  unfold scrape_web, ArticlesAgent.scrape. cbn [bind try_except].
  split; [apply unique_loop_NoDup|].
  intros r Hr. apply unique_loop_subset in Hr. destruct Hr as [Hr _].
  unfold searches in Hr. apply in_flat_map in Hr. destruct Hr as [query [_ Hr]].
  apply in_app_or in Hr. destruct Hr as [Hr | Hr]; [|apply in_app_or in Hr; destruct Hr as [Hr | Hr]].
  - pose proof (search_wikipedia_Forall (wikipedia_api web query)) as Hall.
    rewrite Forall_forall in Hall. destruct (Hall r Hr) as [Hty [Hsrc Hlink]].
    rewrite Hsrc, Hlink. repeat split; try assumption.
  - assert (Hall : Forall medium_article (_search_medium (page web (medium_url query)))).
    { destruct (page web (medium_url query)) as [e | status anchors];
        unfold _search_medium; [constructor|].
      destruct (Nat.eqb status 200); [|constructor].
      apply Forall_firstn, medium_loop_Forall. }
    rewrite Forall_forall in Hall. destruct (Hall r Hr) as [Hty [Hsrc [_ [_ Hlink]]]].
    rewrite Hsrc. repeat split; assumption.
  - pose proof (search_devto_Forall (page web (devto_url query))) as Hall.
    rewrite Forall_forall in Hall. destruct (Hall r Hr) as [Hty [Hsrc [_ [_ Hlink]]]].
    rewrite Hsrc. repeat split; try assumption.
    apply (prefix_split "http" "s://dev.to/"), Hlink.
Qed.

End ArticlesSearchFacts.

(** ** [DocsAgent] *)

Section DocsFacts.

Import DocsAgent.

Lemma get_doc_sources_facts (topic : string) :
  _get_doc_sources topic <> []
  /\ NoDup (map fst (_get_doc_sources topic))
  /\ Forall (fun kv => String.prefix "https://" (snd kv) = true) (_get_doc_sources topic)
  /\ (2 <= length (_get_doc_sources topic) <= 15)%nat.
Proof.
  unfold _get_doc_sources. cbv zeta.
  repeat match goal with
         | |- context [EvaluationAgent.any_in ?w ?t] =>
             destruct (EvaluationAgent.any_in w t)
         end;
    (split; [discriminate|]);
    (split; [apply nodupb_sound; vm_compute; reflexivity|]);
    (split; [apply Forall_forall, forallb_forall; vm_compute; reflexivity|]);
    simpl; lia.
Qed.

(** X17.  [_get_doc_sources] never returns an empty dict: a topic that matches no
    term gets the two general sources.  It returns between 2 and 15 sources,
    under distinct names, each with an [https] address. *)
Theorem doc_sources_never_empty (topic : string) :
  _get_doc_sources topic <> []
  /\ NoDup (map fst (_get_doc_sources topic))
  /\ Forall (fun kv => String.prefix "https://" (snd kv) = true) (_get_doc_sources topic)
  /\ (2 <= length (_get_doc_sources topic) <= 15)%nat.
Proof.
  exact (get_doc_sources_facts topic).
Qed.

(** X18.  The terms are looked for as substrings of the topic: a topic with
    [javascript] in it has [java] in it and gets the Java sources too, and a
    topic with [html] in it has [ml] in it and gets the machine-learning
    sources too. *)
Theorem doc_sources_by_substring (topic : string) :
  (Str.contains "javascript" (Str.lower topic) = true ->
   Str.mem "Oracle Java" (map fst (_get_doc_sources topic)) = true
   /\ Str.mem "Spring" (map fst (_get_doc_sources topic)) = true)
  /\ (Str.contains "html" (Str.lower topic) = true ->
      Str.mem "TensorFlow" (map fst (_get_doc_sources topic)) = true
      /\ Str.mem "PyTorch" (map fst (_get_doc_sources topic)) = true).
Proof.
  split.
  - intros H.
    assert (Hjava : EvaluationAgent.any_in ["java"; "spring"; "maven"] (Str.lower topic)
                    = true).
    { unfold EvaluationAgent.any_in. cbn [existsb].
      rewrite (contains_left "java" "script" _ H). reflexivity. }
    unfold _get_doc_sources. cbv zeta. rewrite Hjava.
    repeat match goal with
           | |- context [EvaluationAgent.any_in ?w ?t] =>
               destruct (EvaluationAgent.any_in w t)
           end; split; vm_compute; reflexivity.
  - intros H.
    assert (Hml : EvaluationAgent.any_in
                    ["machine learning"; "ml"; "tensorflow"; "pytorch"] (Str.lower topic)
                  = true).
    { unfold EvaluationAgent.any_in. cbn [existsb].
      rewrite (contains_right "ht" "ml" _ H). apply orb_true_r. }
    unfold _get_doc_sources. cbv zeta. rewrite Hml.
    repeat match goal with
           | |- context [EvaluationAgent.any_in ?w ?t] =>
               destruct (EvaluationAgent.any_in w t)
           end; split; vm_compute; reflexivity.
Qed.

(** X19.  A snippet taken from the enclosing element has at most 203 characters:
    a text of up to 200 characters is kept as it is, a longer one is cut to
    its first 200 characters and [...] is put after them.  Without an
    enclosing element the snippet is the text of the link, of any length. *)
Theorem extract_snippet_length (link_element : Anchor) :
  match parent link_element with
  | Some t =>
      (String.length (_extract_snippet link_element) <= 203)%nat
      /\ ((String.length t <= 200)%nat -> _extract_snippet link_element = t)
      /\ ((200 < String.length t)%nat ->
          String.length (_extract_snippet link_element) = 203%nat
          /\ PyStr.take 200 (_extract_snippet link_element) = PyStr.take 200 t)
  | None => _extract_snippet link_element = text link_element
  end.
Proof.
  unfold _extract_snippet. destruct (parent link_element) as [t|]; [|reflexivity].
  destruct (200 <? String.length t)%nat eqn:E.
  - apply Nat.ltb_lt in E.
    assert (Hlen : String.length (PyStr.take 200 t) = 200%nat)
      by (apply take_take_length; lia).
    split; [|split].
    + rewrite string_length_app, Hlen. simpl. lia.
    + lia.
    + intros _. split.
      * rewrite string_length_app, Hlen. reflexivity.
      * apply take_app, Hlen.
  - apply Nat.ltb_ge in E. split; [lia|]. split; [reflexivity | lia].
Qed.

Lemma doc_loop_Forall source_name source_url topic_keywords anchors :
  Forall (docs_resource source_name source_url topic_keywords)
    (doc_loop source_name source_url topic_keywords anchors).
Proof.
  induction anchors as [|a rest IH]; [constructor|].
  cbn [doc_loop].
  destruct (String.eqb (text a) "" || (String.length (text a) <? 5)%nat) eqn:Et;
    [exact IH|].
  destruct (existsb _ topic_keywords) eqn:Ek; [|exact IH].
  apply orb_false_iff in Et. destruct Et as [_ Et]. apply Nat.ltb_ge in Et.
  destruct (String.prefix "/" (href a)) eqn:Es.
  - constructor; [|exact IH]. repeat split; try assumption.
    intros Hu. cbn [link]. apply prefix_app_l, rstrip_prefix; [reflexivity | exact Hu].
  - destruct (String.prefix "http" (href a)) eqn:Eh; [|exact IH].
    constructor; [|exact IH]. repeat split; try assumption.
    intros _. exact Eh.
Qed.

Lemma doc_loop_no_keyword source_name source_url anchors :
  doc_loop source_name source_url [] anchors = [].
Proof.
  induction anchors as [|a rest IH]; [reflexivity|].
  cbn [doc_loop existsb]. destruct (_ || _); exact IH.
Qed.

Lemma scrape_doc_source_Forall response source_name source_url topic level :
  Forall (docs_resource source_name source_url (PyStr.split (Str.lower topic)))
    (_scrape_doc_source response source_name source_url topic level).
Proof.
  unfold _scrape_doc_source. destruct response as [e | status anchors]; [constructor|].
  destruct (Nat.eqb status 200); [|constructor].
  apply Forall_firstn, doc_loop_Forall.
Qed.

Lemma scrape_doc_source_length response source_name source_url topic level :
  (length (_scrape_doc_source response source_name source_url topic level) <= 10)%nat.
Proof.
  unfold _scrape_doc_source. destruct response as [e | status anchors]; [simpl; lia|].
  destruct (Nat.eqb status 200); [apply firstn_le_length | simpl; lia].
Qed.

Lemma scrape_doc_source_blank response source_name source_url topic level :
  all_space topic = true ->
  _scrape_doc_source response source_name source_url topic level = [].
Proof.
  intros H. unfold _scrape_doc_source. destruct response as [e | status anchors];
    [reflexivity|].
  destruct (Nat.eqb status 200); [|reflexivity].
  rewrite (split_all_space topic H), doc_loop_no_keyword. reflexivity.
Qed.

(** X20.  [_scrape_doc_source] returns at most ten resources of a page, of type
    [docs], stamped with the name of the source; the title of each has five
    characters or more and, lower-cased, contains a word of the lower-cased
    topic; its link is absolute when the address of the source is.  A topic
    of white space only has no word and gives nothing. *)
Theorem scrape_doc_source_results (response : Fetched (list Anchor))
  (source_name source_url topic level : string) :
  let docs := _scrape_doc_source response source_name source_url topic level in
  (length docs <= 10)%nat
  /\ (forall r, In r docs ->
        type r = "docs" /\ source r = source_name
        /\ (5 <= String.length (title r))%nat
        /\ existsb (fun keyword => Str.contains keyword (Str.lower (title r)))
             (PyStr.split (Str.lower topic)) = true
        /\ (String.prefix "http" source_url = true ->
            String.prefix "http" (link r) = true))
  /\ (all_space topic = true -> docs = []).
Proof.
  cbv zeta. split; [apply scrape_doc_source_length|]. split.
  - intros r Hr.
    pose proof (scrape_doc_source_Forall response source_name source_url topic level) as H.
    rewrite Forall_forall in H. apply (H r Hr).
  - apply scrape_doc_source_blank.
Qed.

Lemma flat_map_length_le {A B : Type} (f : A -> list B) (n : nat) (l : list A) :
  (forall x, (length (f x) <= n)%nat) -> (length (flat_map f l) <= n * length l)%nat.
Proof.
  intros H. induction l as [|x l IH]; simpl; [lia|].
  rewrite length_app. specialize (H x). lia.
Qed.

(** X21.  Whatever the web answers, the [scrape] of [DocsAgent] returns at most 150
    resources, of type [docs], each stamped with one of the sources of the
    topic, with absolute links that are pairwise distinct; and nothing for a
    topic of white space only. *)
Theorem docs_scrape_web (web : Web) (topic level : string) :
  NoDup (map link (scrape_web web topic level))
  /\ (length (scrape_web web topic level) <= 150)%nat
  /\ (forall r, In r (scrape_web web topic level) ->
        type r = "docs"
        /\ In (source r) (map fst (_get_doc_sources topic))
        /\ String.prefix "http" (link r) = true)
  /\ (all_space topic = true -> scrape_web web topic level = []).
Proof.
  unfold scrape_web, ArticlesAgent.scrape. cbn [bind try_except].
  destruct (get_doc_sources_facts topic) as [_ [_ [Hhttps [_ Hlen]]]].
  split; [apply unique_loop_NoDup|]. split; [|split].
  - eapply Nat.le_trans; [apply unique_loop_length|].
    eapply Nat.le_trans.
    + apply (flat_map_length_le _ 10). intros src. apply scrape_doc_source_length.
    + lia.
  - intros r Hr. apply unique_loop_subset in Hr. destruct Hr as [Hr _].
    apply in_flat_map in Hr. destruct Hr as [src [Hsrc Hr]].
    pose proof (scrape_doc_source_Forall (page web (snd src)) (fst src) (snd src)
                  topic level) as Hall.
    rewrite Forall_forall in Hall, Hhttps.
    destruct (Hall r Hr) as [Hty [Hname [_ [_ Hlink]]]].
    split; [exact Hty|]. split.
    + rewrite Hname. apply in_map, Hsrc.
    + apply Hlink. apply (prefix_split "http" "s://"), Hhttps, Hsrc.
  - intros Hblank.
    assert (Hnil : forall l : list (string * string),
              flat_map (fun src => _scrape_doc_source (page web (snd src)) (fst src)
                                     (snd src) topic level) l = []).
    { induction l as [|src l IH]; [reflexivity|].
      cbn [flat_map]. rewrite scrape_doc_source_blank by exact Hblank. exact IH. }
    rewrite Hnil. reflexivity.
Qed.

End DocsFacts.

(** ** Authentication *)


(** ** The video links of [VideosAgent] *)

Section YoutubeFacts.

Import VideosAgent.

Lemma append_empty_r s : (s ++ "")%string = s.
Proof. induction s as [|c s IH]; simpl; congruence. Qed.

Lemma append_assoc (a b c : string) : ((a ++ b) ++ c = a ++ b ++ c)%string.
Proof. induction a as [|x a IH]; simpl; congruence. Qed.

Lemma split_at_not_nil sep s : forall skip cur, PyStr.split_at sep s skip cur <> [].
Proof.
  induction s as [|c s IH]; intros skip cur; cbn [PyStr.split_at]; [discriminate|].
  destruct skip; [|apply IH].
  destruct (String.prefix sep (String c s)); [discriminate | apply IH].
Qed.

Lemma prefix_char c c' s :
  String.prefix (String c "") (String c' s) = Ascii.eqb c' c.
Proof.
  change (String.prefix (String c "") (String c' s))
    with (if ascii_dec c c' then String.prefix "" s else false).
  destruct (ascii_dec c c') as [<-|Hne].
  - rewrite prefix_nil, Ascii.eqb_refl. reflexivity.
  - symmetry. apply Ascii.eqb_neq. congruence.
Qed.

Lemma has_char_snoc c cur x :
  PyStr.has_char c (Str.snoc cur x) = PyStr.has_char c cur || Ascii.eqb x c.
Proof.
  unfold Str.snoc. rewrite has_char_app. simpl. rewrite orb_false_r. reflexivity.
Qed.

(** The first piece of a split on a character does not have the character. *)
Lemma split_char_head c s : forall cur,
  PyStr.has_char c cur = false ->
  exists piece rest,
    PyStr.split_at (String c "") s 0 cur = piece :: rest
    /\ PyStr.has_char c piece = false.
Proof.
  induction s as [|x s IH]; intros cur Hcur.
  - exists cur, []. split; [reflexivity | exact Hcur].
  - cbn [PyStr.split_at]. rewrite prefix_char.
    destruct (Ascii.eqb x c) eqn:E.
    + eexists _, _. split; [reflexivity | exact Hcur].
    + apply IH. rewrite has_char_snoc, Hcur, E. reflexivity.
Qed.

Lemma split_char_stops c s extra : forall cur,
  PyStr.has_char c s = false ->
  exists rest,
    PyStr.split_at (String c "") (s ++ String c extra) 0 cur = (cur ++ s)%string :: rest.
Proof.
  induction s as [|x s IH]; intros cur Hs.
  - change (("" ++ String c extra)%string) with (String c extra).
    cbn [PyStr.split_at]. rewrite prefix_char, Ascii.eqb_refl.
    eexists. rewrite append_empty_r. reflexivity.
  - simpl in Hs. apply orb_false_iff in Hs. destruct Hs as [Hx Hs].
    change ((String x s ++ String c extra)%string)
      with (String x (s ++ String c extra)).
    cbn [PyStr.split_at]. rewrite prefix_char, Hx.
    destruct (IH (Str.snoc cur x) Hs) as [rest Hrest].
    exists rest. rewrite Hrest. f_equal.
    unfold Str.snoc. rewrite append_assoc. reflexivity.
Qed.

Lemma split_char_whole c s : forall cur,
  PyStr.has_char c s = false ->
  PyStr.split_at (String c "") s 0 cur = [(cur ++ s)%string].
Proof.
  induction s as [|x s IH]; intros cur Hs.
  - cbn. rewrite append_empty_r. reflexivity.
  - simpl in Hs. apply orb_false_iff in Hs. destruct Hs as [Hx Hs].
    cbn [PyStr.split_at]. rewrite prefix_char, Hx, (IH _ Hs).
    unfold Str.snoc. rewrite append_assoc. reflexivity.
Qed.

(** After [/watch?v=] the split on [v=] has a second piece. *)
Lemma split_watch rest :
  PyStr.split_on "v=" ("/watch?v=" ++ rest) = "/watch?" :: PyStr.split_on "v=" rest.
Proof.
  unfold PyStr.split_on. cbn. rewrite prefix_nil. reflexivity.
Qed.

Lemma prefix_inv p : forall s,
  String.prefix p s = true -> exists rest, s = (p ++ rest)%string.
Proof.
  induction p as [|c p IH]; intros s H; [exists s; reflexivity|].
  destruct s as [|c' s]; [discriminate|].
  change (String.prefix (String c p) (String c' s))
    with (if ascii_dec c c' then String.prefix p s else false) in H.
  destruct (ascii_dec c c') as [<-|]; [|discriminate].
  destruct (IH s H) as [rest ->]. exists rest. reflexivity.
Qed.

Lemma video_id_total href :
  String.prefix "/watch?v=" href = true ->
  exists id, video_id href = Some id /\ PyStr.has_char "&" id = false.
Proof.
  intros H. destruct (prefix_inv _ _ H) as [rest ->].
  unfold video_id. rewrite split_watch.
  destruct (PyStr.split_on "v=" rest) as [|part parts] eqn:E.
  - exfalso. apply (split_at_not_nil _ _ _ _ E).
  - cbn [nth_error].
    destruct (split_char_head "&" part "" eq_refl) as [piece [more [Hsplit Hno]]].
    unfold PyStr.split_on. rewrite Hsplit. exists piece. split; [reflexivity | exact Hno].
Qed.

Lemma prefix_v_eq x s tail :
  PyStr.has_char "=" s = false ->
  String.prefix "v=" (String x (s ++ String "&" tail)) = false
  /\ String.prefix "v=" (String x s) = false.
Proof.
  intros Hs.
  change (String.prefix "v=" (String x (s ++ String "&" tail)))
    with (if ascii_dec "v" x then String.prefix "=" (s ++ String "&" tail) else false).
  change (String.prefix "v=" (String x s))
    with (if ascii_dec "v" x then String.prefix "=" s else false).
  destruct (ascii_dec "v" x); [|split; reflexivity].
  destruct s as [|y s']; [split; reflexivity|].
  simpl in Hs. apply orb_false_iff in Hs. destruct Hs as [Hy _].
  change ((String y s' ++ String "&" tail)%string) with (String y (s' ++ String "&" tail)).
  rewrite !prefix_char, Hy. split; reflexivity.
Qed.

Lemma split_v_whole s : forall cur,
  PyStr.has_char "=" s = false ->
  PyStr.split_at "v=" s 0 cur = [(cur ++ s)%string].
Proof.
  induction s as [|x s IH]; intros cur Hs.
  - cbn. rewrite append_empty_r. reflexivity.
  - pose proof Hs as Hs'. simpl in Hs'. apply orb_false_iff in Hs'.
    destruct Hs' as [_ Hs'].
    cbn [PyStr.split_at].
    rewrite (proj2 (prefix_v_eq x s "" Hs')), (IH _ Hs').
    unfold Str.snoc. rewrite append_assoc. reflexivity.
Qed.

Lemma split_v_some t : forall cur,
  exists w rest, PyStr.split_at "v=" t 0 cur = (cur ++ w)%string :: rest.
Proof.
  induction t as [|y t IH]; intros cur.
  - exists "", []. cbn. rewrite append_empty_r. reflexivity.
  - cbn [PyStr.split_at].
    destruct (String.prefix "v=" (String y t)).
    + eexists "", _. rewrite append_empty_r. reflexivity.
    + destruct (IH (Str.snoc cur y)) as [w [rest Hw]].
      exists (String y w), rest. rewrite Hw. unfold Str.snoc.
      rewrite append_assoc. reflexivity.
Qed.

Lemma split_v_head s extra : forall cur,
  PyStr.has_char "=" s = false ->
  exists w rest,
    PyStr.split_at "v=" (s ++ String "&" extra) 0 cur
    = (cur ++ s ++ String "&" w)%string :: rest.
Proof.
  induction s as [|x s IH]; intros cur Hs.
  - change (("" ++ String "&" extra)%string) with (String "&" extra).
    cbn [PyStr.split_at].
    change (String.prefix "v=" (String "&" extra)) with false. cbv iota.
    destruct (split_v_some extra (Str.snoc cur "&")) as [w [rest Hw]].
    exists w, rest. rewrite Hw. unfold Str.snoc.
    rewrite append_assoc. reflexivity.
  - simpl in Hs. apply orb_false_iff in Hs. destruct Hs as [_ Hs].
    change ((String x s ++ String "&" extra)%string)
      with (String x (s ++ String "&" extra)).
    cbn [PyStr.split_at].
    rewrite (proj1 (prefix_v_eq x s extra Hs)).
    destruct (IH (Str.snoc cur x) Hs) as [w [rest Hw]].
    exists w, rest. rewrite Hw. unfold Str.snoc.
    rewrite append_assoc. reflexivity.
Qed.

Variable _extract_video_description : Anchor -> string.

Lemma youtube_loop_total anchors :
  exists videos,
    youtube_loop _extract_video_description anchors = Some videos
    /\ length videos = length (filter youtube_anchor anchors)
    /\ Forall youtube_video videos.
Proof.
  induction anchors as [|a rest IH].
  - exists []. repeat split. constructor.
  - destruct IH as [videos [Hvideos [Hlen Hall]]].
    cbn [youtube_loop filter]. unfold youtube_anchor at 1.
    destruct (String.eqb (text a) "" || (String.length (text a) <? 10)%nat) eqn:Et.
    + exists videos. auto.
    + cbn [negb andb].
      destruct (String.prefix "/watch?v=" (href a)) eqn:Eh.
      * destruct (video_id_total _ Eh) as [id [Hid Hno]].
        rewrite Hid, Hvideos. eexists. split; [reflexivity|]. split.
        -- simpl. rewrite Hlen. reflexivity.
        -- constructor; [|exact Hall].
           apply orb_false_iff in Et. destruct Et as [_ Et]. apply Nat.ltb_ge in Et.
           repeat split; try exact Et. exists id. split; [reflexivity | exact Hno].
      * exists videos. auto.
Qed.

(** X22.  The indexing [href.split('v=')[1].split('&')[0]] of
    [_search_youtube] never fails on a link that starts with [/watch?v=]: the
    search returns the first ten of the links of the page that start so and
    have a text of ten characters or more, as videos of the source [youtube]
    whose link is [https://www.youtube.com/watch?v=] and an id without
    [&]. *)
Theorem search_youtube_results (response : Fetched (list Anchor)) :
  (length (_search_youtube _extract_video_description response) <= 10)%nat
  /\ (forall r, In r (_search_youtube _extract_video_description response) ->
        type r = "video" /\ source r = "youtube"
        /\ (10 <= String.length (title r))%nat
        /\ exists id, link r = ("https://www.youtube.com/watch?v=" ++ id)%string
                      /\ PyStr.has_char "&" id = false)
  /\ (forall anchors, response = FetchStatus 200 anchors ->
        length (_search_youtube _extract_video_description response)
        = Nat.min 10 (length (filter youtube_anchor anchors))).
Proof.
  split; [|split].
  - unfold _search_youtube. destruct response as [e | status anchors]; [simpl; lia|].
    destruct (Nat.eqb status 200); [|simpl; lia].
    destruct (youtube_loop _ anchors); [apply firstn_le_length | simpl; lia].
  - intros r Hr. unfold _search_youtube in Hr.
    destruct response as [e | status anchors]; [contradiction|].
    destruct (Nat.eqb status 200); [|contradiction].
    destruct (youtube_loop_total anchors) as [videos [Hv [_ Hall]]].
    rewrite Hv in Hr. apply firstn_In in Hr.
    rewrite Forall_forall in Hall. apply (Hall r Hr).
  - intros anchors ->. unfold _search_youtube. rewrite Nat.eqb_refl.
    destruct (youtube_loop_total anchors) as [videos [Hv [Hlen _]]].
    rewrite Hv, length_firstn, Hlen. reflexivity.
Qed.

End YoutubeFacts.

(** X23.  What follows the id in a video link is dropped: for an id without
    [&] and without [=], the link [/watch?v=id] and the link
    [/watch?v=id&...] give the same id, so that the removal of duplicates
    takes them for the same video. *)
Theorem video_id_drops_parameters (id extra : string) :
  PyStr.has_char "&" id = false ->
  PyStr.has_char "=" id = false ->
  VideosAgent.video_id ("/watch?v=" ++ id) = Some id
  /\ VideosAgent.video_id ("/watch?v=" ++ id ++ "&" ++ extra) = Some id.
Proof.
  intros Hamp Heq. unfold VideosAgent.video_id. rewrite !split_watch.
  unfold PyStr.split_on. split.
  - rewrite (split_v_whole id "" Heq). cbn [nth_error append].
    rewrite (split_char_whole "&" id "" Hamp). reflexivity.
  - change (("&" ++ extra)%string) with (String "&" extra).
    destruct (split_v_head id extra "" Heq) as [w [rest Hw]].
    rewrite Hw. cbn [nth_error append].
    destruct (split_char_stops "&" id w "" Hamp) as [rest' Hrest].
    rewrite Hrest. reflexivity.
Qed.

Lemma video_id_drops_parameters_witness :
  VideosAgent.video_id "/watch?v=dQw4w9WgXcQ&t=42s" = Some "dQw4w9WgXcQ".
Proof.
  apply (video_id_drops_parameters "dQw4w9WgXcQ" "t=42s"); reflexivity.
Defined.
